(** * PropertyConnect: query building, paging, rating and image-list logic

    A shallow embedding of the request handlers of the listings service
    (routes/properties.js, routes/agents.js, routes/upload.js) and of the
    model methods they call (models/User.js, models/Property.js).

    Conventions of the embedding.
    - A JavaScript Number is the rational it stands for: a [Z] when it
      only ever holds a counter or an index, a [Q] otherwise.  Arithmetic
      on Numbers rounds as IEEE 754 binary64 does: each operation yields
      the Number nearest the exact result ([JS.fl]), so a sum of integers
      is exact up to 2^53 and no further.  The exponent range is not
      bounded: results of magnitude 2^1024 and more, which the language
      turns into Infinity, and subnormal results are outside the model.
    - A string is the sequence of bytes of its UTF-8 form.
    - [req.query] and [req.body] are finite maps from parameter names to
      the string form of the value, which is what express-validator and
      [parseInt]/[parseFloat] operate on.
    - A collection is a finite map from document ids to documents; a
      handler takes the collection and returns the response together with
      the collection after its writes.
    - The outcome of calls that leave the process (token verification, the
      media host, the storage engine's matching and ordering) is an input
      of the handler. *)

From Stdlib Require Import ZArith QArith Qround Qabs Qpower Qreduction.
From Stdlib Require Import List Ascii String Lia Lqa.
From stdpp Require Import base option list gmap strings sorting.

Local Open Scope string_scope.
Local Open Scope Z_scope.

(** ** JavaScript primitives used by the handlers *)

Module JS.

(** StrWhiteSpaceChar, restricted to its ASCII members (TAB, LF, VT, FF,
    CR, SP). *)
Definition is_ws (c : ascii) : bool :=
  let n := Z.of_N (N_of_ascii c) in
  ((9 <=? n) && (n <=? 13)) || (n =? 32).

Fixpoint trimStart (s : string) : string :=
  match s with
  | String c s' => if is_ws c then trimStart s' else s
  | EmptyString => s
  end.

(** The value of [c] as a digit in the given radix, if it is one. *)
Definition digit_val (radix : Z) (c : ascii) : option Z :=
  let n := Z.of_N (N_of_ascii c) in
  let v := if (48 <=? n) && (n <=? 57) then Some (n - 48)
           else if (97 <=? n) && (n <=? 122) then Some (n - 87)
           else if (65 <=? n) && (n <=? 90) then Some (n - 55)
           else None in
  match v with
  | Some d => if d <? radix then Some d else None
  | None => None
  end.

(** Longest prefix of radix digits, as a number; [acc] is [None] until a
    digit has been read. *)
Fixpoint digits_prefix (radix : Z) (acc : option Z) (s : string) : option Z :=
  match s with
  | String c s' =>
      match digit_val radix c with
      | Some d => digits_prefix radix (Some (radix * default 0 acc + d)) s'
      | None => acc
      end
  | EmptyString => acc
  end.

(** A leading sign, and the rest. *)
Definition sign_of (s : string) : Z * string :=
  match s with
  | String c r =>
      if Ascii.eqb c "-" then (-1, r)
      else if Ascii.eqb c "+" then (1, r)
      else (1, s)
  | EmptyString => (1, s)
  end.

(** Radix 16 after a leading [0x] or [0X], radix 10 otherwise. *)
Definition radix_of (s : string) : Z * string :=
  match s with
  | String c0 (String c1 r) =>
      if Ascii.eqb c0 "0" && (Ascii.eqb c1 "x" || Ascii.eqb c1 "X")
      then (16, r) else (10, s)
  | _ => (10, s)
  end.

(** The integer nearest [y], a tie going to the even one. *)
Definition round_half_even (y : Q) : Z :=
  let m := Qfloor y in
  match (y - inject_Z m ?= 1 # 2)%Q with
  | Lt => m
  | Gt => m + 1
  | Eq => if Z.even m then m else m + 1
  end.

(** The exponent [e] with [2^e <= x < 2^(e+1)], for a positive [x]. *)
Definition ilog2 (x : Q) : Z :=
  let g := Z.log2 (Qnum x) - Z.log2 (Zpos (Qden x)) in
  if Qle_bool (2 ^ g) x then g else g - 1.

(** The Number nearest a real, as binary64 arithmetic rounds every
    result: 53 significant bits, a tie going to the even significand.
    The value is in lowest terms. *)
Definition fl (x : Q) : Q :=
  let x := Qred x in
  if Qeq_bool x 0 then 0%Q
  else
    let e := ilog2 (Qabs x) - 52 in
    let m := round_half_even (Qabs x / 2 ^ e) in
    Qred ((if Qle_bool 0 x then 1 else -1) * inject_Z m * 2 ^ e).

(** [x + y], [x * y] and [x / y] on Numbers; the divisor is not 0. *)
Definition add (x y : Q) : Q := fl (x + y).
Definition mul (x y : Q) : Q := fl (x * y).
Definition div (x y : Q) : Q := fl (x / y).

(** The Number nearest an integer, which is an integer. *)
Definition Number_of (z : Z) : Z := Qfloor (fl (inject_Z z)).

(** [parseInt(s)] without a radix argument: the Number nearest the
    integer read; [None] is NaN. *)
Definition parseInt (s : string) : option Z :=
  let '(sign, s2) := sign_of (trimStart s) in
  let '(radix, s3) := radix_of s2 in
  (fun n => Number_of (sign * n)) <$> digits_prefix radix None s3.

(** [parseInt(x) || d] on a possibly missing parameter: NaN and 0 are
    falsy. *)
Definition parseInt_or (x : option string) (d : Z) : Z :=
  match x ≫= parseInt with
  | Some z => if z =? 0 then d else z
  | None => d
  end.

(** [if (x)] on a possibly missing string: [undefined] and the empty
    string are falsy. *)
Definition truthy (x : option string) : option string :=
  match x with
  | Some "" => None
  | _ => x
  end.

(** [Math.ceil(a / b)] on integer-valued operands, the quotient taken
    exactly: the least number of groups of [b] that hold [a]. *)
Definition Math_ceil_div (a b : Z) : Z := Qceiling (inject_Z a / inject_Z b).

(** [Math.ceil(x)] *)
Definition Math_ceil (x : Q) : Z := Qceiling x.

(** A byte that continues a UTF-8 sequence, and one that starts a
    sequence of four bytes: a code point that takes two UTF-16 units. *)
Definition is_continuation (c : ascii) : bool :=
  let n := Z.of_N (N_of_ascii c) in (128 <=? n) && (n <? 192).

Definition is_long_lead (c : ascii) : bool :=
  240 <=? Z.of_N (N_of_ascii c).

Fixpoint code_points (s : string) : nat :=
  match s with
  | String c r => ((if is_continuation c then 0 else 1) + code_points r)%nat
  | EmptyString => 0%nat
  end.

(** [s.length]: the number of UTF-16 units of the string. *)
Fixpoint length (s : string) : nat :=
  match s with
  | String c r =>
      ((if is_continuation c then 0 else if is_long_lead c then 2 else 1) + length r)%nat
  | EmptyString => 0%nat
  end.

End JS.

(** ** express-validator chains *)

Module Validator.

(** A string of one or more decimal digits, as a number. *)
Fixpoint decimal (acc : option Z) (s : string) : option Z :=
  match s with
  | String c s' =>
      match JS.digit_val 10 c with
      | Some d => decimal (Some (10 * default 0 acc + d)) s'
      | None => None
      end
  | EmptyString => acc
  end.

(** The numeric value of a string matching [/^[-+]?[0-9]+$/]. *)
Definition int_string (s : string) : option Z :=
  match s with
  | String c r =>
      if Ascii.eqb c "-" then Z.opp <$> decimal None r
      else if Ascii.eqb c "+" then decimal None r
      else decimal None s
  | EmptyString => None
  end.

Definition in_bounds (min max : option Z) (z : Z) : bool :=
  from_option (fun m => m <=? z) true min && from_option (fun m => z <=? m) true max.

(** [isInt({min, max})]: leading zeroes are allowed by default. *)
Definition isInt (min max : option Z) (s : string) : bool :=
  match int_string s with
  | Some z => in_bounds min max z
  | None => false
  end.

(** [isIn(values)] *)
Definition isIn (values : list string) (s : string) : bool :=
  existsb (String.eqb s) values.

(** [isString()] holds of every single-valued parameter. *)
Definition isString (s : string) : bool := true.

(** One chain: [query(field)] or [body(field)], [.optional()] or not, and
    the conjunction of its checks. *)
Record chain := Chain { field : string; optional : bool; test : string -> bool }.

(** A chain passes when the field is undefined and optional; otherwise its
    checks run on the string form of the value, which for [undefined] is
    the empty string. *)
Definition passes (data : gmap string string) (c : chain) : bool :=
  match data !! field c with
  | Some s => test c s
  | None => optional c || test c ""
  end.

(** [validationResult(req).isEmpty()] *)
Definition isEmpty (chains : list chain) (data : gmap string string) : bool :=
  forallb (passes data) chains.

End Validator.

(** ** Text helpers of the language and of validator.js *)

Module Text.

(** [s.split(sep)] for a one-character separator: the empty string splits
    into one empty piece. *)
Fixpoint split (sep : ascii) (s : string) : list string :=
  match s with
  | EmptyString => [""]
  | String c r =>
      if Ascii.eqb c sep then "" :: split sep r
      else match split sep r with
           | piece :: pieces => String c piece :: pieces
           | [] => [String c ""]
           end
  end.

Fixpoint has_space (s : string) : bool :=
  match s with
  | String c r => Ascii.eqb c " " || has_space r
  | EmptyString => false
  end.

(** [s.startsWith(p)] *)
Definition startsWith (p s : string) : bool := String.prefix p s.

(** How often the bytes [a b c] occur in a row. *)
Fixpoint occurrences (a b c : ascii) (s : string) : nat :=
  match s with
  | String x ((String y (String z _)) as r) =>
      ((if Ascii.eqb x a && Ascii.eqb y b && Ascii.eqb z c then 1 else 0)
       + occurrences a b c r)%nat
  | _ => 0%nat
  end.

(** The variation selectors U+FE0E and U+FE0F of a string, which in
    UTF-8 are the bytes EF B8 8E and EF B8 8F. *)
Definition selectors (s : string) : nat :=
  (occurrences "239" "184" "142" s + occurrences "239" "184" "143" s)%nat.

(** The length validator.js measures:
<<
  const presentationSequences = str.match(/(\uFE0F|\uFE0E)/g) || [];
  const surrogatePairs = str.match(/[\uD800-\uDBFF][\uDC00-\uDFFF]/g) || [];
  const len = str.length - presentationSequences.length - surrogatePairs.length;
>>
    that is, the code points that are not variation selectors. *)
Definition characters (s : string) : nat :=
  (JS.code_points s - selectors s)%nat.

(** [isLength({ min, max })] *)
Definition isLength (min max : nat) (s : string) : bool :=
  (min <=? characters s)%nat && (characters s <=? max)%nat.

Definition is_digit (c : ascii) : bool :=
  let n := Z.of_N (N_of_ascii c) in (48 <=? n) && (n <=? 57).

Definition is_nonzero_digit (c : ascii) : bool :=
  let n := Z.of_N (N_of_ascii c) in (49 <=? n) && (n <=? 57).

Fixpoint all_digits (s : string) : bool :=
  match s with
  | String c r => is_digit c && all_digits r
  | EmptyString => true
  end.

(** [/^[\+]?[1-9][\d]{0,15}$/.test(s)], the phone pattern of the models
    and of the request chains. *)
Definition phone (s : string) : bool :=
  let digits :=
    match s with
    | String c r => if Ascii.eqb c "+" then r else s
    | EmptyString => s
    end in
  match digits with
  | String d r => is_nonzero_digit d && all_digits r && (String.length r <=? 15)%nat
  | EmptyString => false
  end.

(** [\w] *)
Definition is_word (c : ascii) : bool :=
  let n := Z.of_N (N_of_ascii c) in
  ((48 <=? n) && (n <=? 57)) || ((65 <=? n) && (n <=? 90))
  || ((97 <=? n) && (n <=? 122)) || (n =? 95).

Fixpoint all_word (s : string) : bool :=
  match s with
  | String c r => is_word c && all_word r
  | EmptyString => true
  end.

(** Whether [s], read after a character that is a word character or not
    ([after_word]), completes a match of [\w+([.-]?\w+)*]: word
    characters, with single dots and hyphens between them. *)
Fixpoint dotted_words (after_word : bool) (s : string) : bool :=
  match s with
  | String c r =>
      if is_word c then dotted_words true r
      else if Ascii.eqb c "." || Ascii.eqb c "-" then after_word && dotted_words false r
      else false
  | EmptyString => after_word
  end.

(** Whether [s] matches [\w+([.-]?\w+)*(\.\w{2,3})+]: dotted words that
    end in a dot and two or three word characters, with dotted words
    before that dot. *)
Definition domain (s : string) : bool :=
  let n := String.length s in
  let ends_in (k : nat) :=
    (k + 2 <=? n)%nat
    && dotted_words false (String.substring 0 (n - k - 1) s)
    && String.eqb (String.substring (n - k - 1) 1 s) "."
    && all_word (String.substring (n - k) k s) in
  ends_in 2%nat || ends_in 3%nat.

(** [/^\w+([.-]?\w+)*@\w+([.-]?\w+)*(\.\w{2,3})+$/.test(s)], the email
    pattern of the models. *)
Definition email (s : string) : bool :=
  match split "@" s with
  | [name; host] => dotted_words false name && domain host
  | _ => false
  end.

End Text.

#[global] Instance Q_eq_dec : EqDecision Q.
Proof. solve_decision. Defined.

(** Milliseconds since the epoch. *)
Abbreviation Date := Z (only parsing).

(** ** models/User.js *)

Module User.

Record Rating := { average : Q; count : Z }.

Record Address := {
  street : option string; city : option string; state : option string;
  zipCode : option string; country : option string }.

Record AgentProfile := {
  licenseNumber : option string;
  experience : option Z;
  specialization : list string;
  bio : option string;
  phone : option string;
  address : Address;
  profileImage : option (string * string);
  rating : Rating;
  totalTransactions : Z;
  isVerified : bool;
  verificationDocuments : list (string * Date) }.

(** The credential and token fields, which no handler below reads, are
    left out. *)
Record t := {
  id : string;
  name : string;
  email : string;
  role : string;
  isAgent : bool;
  agentProfile : AgentProfile;
  isActive : bool;
  createdAt : Date;
  updatedAt : Date }.

#[global] Instance Rating_eq_dec : EqDecision Rating.
Proof. solve_decision. Defined.
#[global] Instance Address_eq_dec : EqDecision Address.
Proof. solve_decision. Defined.
#[global] Instance AgentProfile_eq_dec : EqDecision AgentProfile.
Proof. solve_decision. Defined.
#[global] Instance t_eq_dec : EqDecision t.
Proof. solve_decision. Defined.

(** The schema defaults of [agentProfile.rating]. *)
Definition rating_default : Rating := {| average := 0; count := 0 |}.

Definition set_rating (r : Rating) (this : t) : t :=
  let p := agentProfile this in
  {| id := id this; name := name this; email := email this; role := role this;
     isAgent := isAgent this;
     agentProfile :=
       {| licenseNumber := licenseNumber p; experience := experience p;
          specialization := specialization p; bio := bio p; phone := phone p;
          address := address p; profileImage := profileImage p;
          rating := r;
          totalTransactions := totalTransactions p; isVerified := isVerified p;
          verificationDocuments := verificationDocuments p |};
     isActive := isActive this;
     createdAt := createdAt this; updatedAt := updatedAt this |}.

Definition set_updatedAt (now : Date) (this : t) : t :=
  {| id := id this; name := name this; email := email this; role := role this;
     isAgent := isAgent this; agentProfile := agentProfile this;
     isActive := isActive this;
     createdAt := createdAt this; updatedAt := now |}.

(** The validators of [agentProfile.rating.average]: [min: 0, max: 5]. *)
Definition valid_average (r : Rating) : bool :=
  Qle_bool 0 (average r) && Qle_bool (average r) 5.

Definition role_enum : list string := ["user"; "agent"; "admin"].

Definition specialization_enum : list string :=
  ["residential"; "commercial"; "land"; "luxury"; "rental"].

(** The validators of the other paths of the schema: [required] refuses
    an empty string, [maxlength] measures [length], [match] and [enum]
    let an absent value through, and [match] an empty one. *)
Definition valid_others (this : t) : bool :=
  let p := agentProfile this in
  negb (String.eqb (name this) "") && (JS.length (name this) <=? 50)%nat
  && negb (String.eqb (email this) "") && Text.email (email this)
  && Validator.isIn role_enum (role this)
  && from_option (fun n => 0 <=? n) true (experience p)
  && forallb (Validator.isIn specialization_enum) (specialization p)
  && from_option (fun s => (JS.length s <=? 500)%nat) true (bio p)
  && from_option (fun s => String.eqb s "" || Text.phone s) true (phone p).

(** Validation of a loaded document: the validators of every path run,
    those of the paths that were not assigned included. *)
Definition valid (this : t) : bool :=
  valid_others this && valid_average (rating (agentProfile this)).

(** [this.save()] under [timestamps: true]: the document is validated,
    and the save throws when a validator fails; a document that differs
    from what was loaded gets [updatedAt] set to the time of the save. *)
Definition save (now : Date) (loaded this : t) : option t :=
  if valid this
  then Some (if decide (this = loaded) then this else set_updatedAt now this)
  else None.

(** The arithmetic of [updateRating] on the rating sub-document, every
    operation rounding to a Number:
<<
  const currentTotal = rating.average * rating.count;
  rating.count += 1;
  rating.average = (currentTotal + newRating) / rating.count;
>> *)
Definition foldRating (r : Rating) (newRating : Q) : Rating :=
  let currentTotal := JS.mul (average r) (inject_Z (count r)) in
  let count' := JS.Number_of (count r + 1) in
  {| average := JS.div (JS.add currentTotal newRating) (inject_Z count');
     count := count' |}.

(** [None] when the save throws.  A count that reaches 0 makes the
    quotient Infinity or NaN, neither of which the path of the average
    accepts. *)
Definition updateRating (now : Date) (newRating : Q) (this : t) : option t :=
  let r := foldRating (rating (agentProfile this)) newRating in
  if count r =? 0 then None else save now this (set_rating r this).

End User.

(** ** models/Property.js *)

Module Property.

Record Price := { amount : Q; currency : string; priceType : string }.

Record Address := {
  street : string; city : string; state : string; zipCode : string;
  country : string;
  coordinates : option (Q * Q) }.

Record Specifications := {
  bedrooms : Z; bathrooms : Z;
  area_value : Q; area_unit : string;
  floors : option Z; parking : Z; furnished : string;
  yearBuilt : option Z }.

Record Image := {
  image_id : string;
  public_id : string;
  url : string;
  caption : option string;
  isPrimary : bool }.

Record ContactInfo := {
  contact_phone : string; contact_email : option string; whatsapp : option string }.

Record Inquiry := {
  inquiry_user : option string;
  message : option string;
  inquiry_phone : option string;
  inquiry_email : option string;
  inquiry_createdAt : Date }.

Record Analytics := { impressions : Z; clicks : Z; saves : Z }.

Record t := {
  id : string;
  title : string;
  description : string;
  type : string;
  listingType : string;
  price : Price;
  address : Address;
  specifications : Specifications;
  amenities : list string;
  images : list Image;
  agent : string;
  contactInfo : ContactInfo;
  status : string;
  featured : bool;
  views : Z;
  inquiries : list Inquiry;
  tags : list string;
  seoTitle : option string;
  seoDescription : option string;
  isVerified : bool;
  verificationDocuments : list (string * string);
  analytics : Analytics;
  createdAt : Date;
  updatedAt : Date }.

#[global] Instance Price_eq_dec : EqDecision Price.
Proof. solve_decision. Defined.
#[global] Instance Address_eq_dec : EqDecision Address.
Proof. solve_decision. Defined.
#[global] Instance Specifications_eq_dec : EqDecision Specifications.
Proof. solve_decision. Defined.
#[global] Instance Image_eq_dec : EqDecision Image.
Proof. solve_decision. Defined.
#[global] Instance ContactInfo_eq_dec : EqDecision ContactInfo.
Proof. solve_decision. Defined.
#[global] Instance Inquiry_eq_dec : EqDecision Inquiry.
Proof. solve_decision. Defined.
#[global] Instance Analytics_eq_dec : EqDecision Analytics.
Proof. solve_decision. Defined.
#[global] Instance t_eq_dec : EqDecision t.
Proof. solve_decision. Defined.

(** The [enum] of [status]. *)
Definition status_enum : list string :=
  ["draft"; "active"; "pending"; "sold"; "rented"; "inactive"].

(** The fields the handlers below assign, gathered in one update; every
    other field is carried over. *)
Record Patch := {
  p_images : list Image; p_status : string; p_views : Z;
  p_impressions : Z; p_updatedAt : Date }.

Definition patch (this : t) : Patch :=
  {| p_images := images this; p_status := status this; p_views := views this;
     p_impressions := impressions (analytics this); p_updatedAt := updatedAt this |}.

Definition apply (f : Patch) (this : t) : t :=
  {| id := id this; title := title this; description := description this;
     type := type this; listingType := listingType this; price := price this;
     address := address this; specifications := specifications this;
     amenities := amenities this;
     images := p_images f;
     agent := agent this; contactInfo := contactInfo this;
     status := p_status f;
     featured := featured this;
     views := p_views f;
     inquiries := inquiries this; tags := tags this;
     seoTitle := seoTitle this; seoDescription := seoDescription this;
     isVerified := isVerified this;
     verificationDocuments := verificationDocuments this;
     analytics :=
       {| impressions := p_impressions f;
          clicks := clicks (analytics this); saves := saves (analytics this) |};
     createdAt := createdAt this;
     updatedAt := p_updatedAt f |}.

Definition set_images (l : list Image) (this : t) : t :=
  let f := patch this in
  apply {| p_images := l; p_status := p_status f; p_views := p_views f;
           p_impressions := p_impressions f; p_updatedAt := p_updatedAt f |} this.

Definition set_status (s : string) (this : t) : t :=
  let f := patch this in
  apply {| p_images := p_images f; p_status := s; p_views := p_views f;
           p_impressions := p_impressions f; p_updatedAt := p_updatedAt f |} this.

Definition set_views (n : Z) (this : t) : t :=
  let f := patch this in
  apply {| p_images := p_images f; p_status := p_status f; p_views := n;
           p_impressions := p_impressions f; p_updatedAt := p_updatedAt f |} this.

Definition set_impressions (n : Z) (this : t) : t :=
  let f := patch this in
  apply {| p_images := p_images f; p_status := p_status f; p_views := p_views f;
           p_impressions := n; p_updatedAt := p_updatedAt f |} this.

Definition set_updatedAt (now : Date) (this : t) : t :=
  let f := patch this in
  apply {| p_images := p_images f; p_status := p_status f; p_views := p_views f;
           p_impressions := p_impressions f; p_updatedAt := now |} this.

(** [this.save()] under [timestamps: true]: a document that differs from
    what was loaded gets [updatedAt] set to the time of the save.  Of the
    paths the handlers below modify, [images], [views] and
    [analytics.impressions] have no validator that an assigned value can
    fail, and [status] is assigned only after the request's chain has
    checked it against the same enumeration.  A save also runs the
    validators of the other paths of the document; the documents of the
    collection are taken to pass them, as the ones [Property.create] and
    earlier saves stored do, so this save does not throw. *)
Definition save (now : Date) (loaded this : t) : t :=
  if decide (this = loaded) then this else set_updatedAt now this.

(** <<
  this.views += 1;
  this.analytics.impressions += 1;
  return this.save();
>> *)
Definition incrementViews (now : Date) (this : t) : t :=
  let this1 := set_views (JS.Number_of (views this + 1)) this in
  let this2 :=
    set_impressions (JS.Number_of (impressions (analytics this1) + 1)) this1 in
  save now this this2.

End Property.

(** ** Requests, responses and the storage engine *)

Module Http.

(** [res.status(code).json(...)]: a success carries its payload, a refusal
    its message.  [next(error)] ends in the application's error handler,
    which answers 500 "Something went wrong!". *)
Inductive Response (A : Type) : Type :=
| Json (code : Z) (payload : A)
| Refuse (code : Z) (message : string).
Arguments Json {A} code payload.
Arguments Refuse {A} code message.

Definition code {A} (r : Response A) : Z :=
  match r with Json c _ => c | Refuse c _ => c end.

Definition next_error {A} : Response A := Refuse 500 "Something went wrong!".

Definition validation_errors {A} : Response A := Refuse 400 "Validation errors".

(** The body of a paginated listing. *)
Record Listing (D : Type) := {
  count : Z; total : Z; page : Z; pages : Z; docs : list D }.
Arguments count {D}.
Arguments total {D}.
Arguments page {D}.
Arguments pages {D}.
Arguments docs {D}.

End Http.

Module Mongo.

(** A JavaScript number handed to the engine; [NaN] included. *)
Inductive number := NaN | Num (q : Q).

Definition of_int (x : option Z) : number :=
  match x with Some z => Num (inject_Z z) | None => NaN end.

(** The value side of one filter entry. *)
#[local] Set Warnings "-register-all".
Inductive Cond :=
| Is (s : string)                        (* exact match on a string *)
| IsBool (b : bool)                      (* exact match on a flag *)
| RegExp_i (pattern : string)            (* new RegExp(pattern, 'i') *)
| Range (gte lte : option number)        (* { $gte: .., $lte: .. }, each key optional *)
| AnyOf (alternatives : list (string * Cond)).   (* $or: [{k: v}, ...] *)

Abbreviation Filter := (gmap string Cond).

(** A sort document keeps the order of its keys. *)
Abbreviation Sort := (list (string * Z)).

Record Query := { q_filter : Filter; q_sort : Sort; q_skip : Z; q_limit : Z }.

(** [.limit(n)]: 0 is no limit, a negative [n] limits to [|n|]. *)
Definition limit {D} (n : Z) (l : list D) : list D :=
  if n =? 0 then l else take (Z.to_nat (Z.abs n)) l.

(** [.skip(n)]: the engine refuses a negative [n]. *)
Definition skip {D} (n : Z) (l : list D) : option (list D) :=
  if n <? 0 then None else Some (drop (Z.to_nat n) l).

(** What the process does not decide: the numeric parsers of the language
    and of validator.js on arbitrary strings, which strings
    [new RegExp(s, 'i')] accepts as a pattern rather than throwing, and
    which documents of each collection a filter selects and in which order
    a sort document puts them. *)
Record Env := {
  parseFloat : string -> number;
  isFloat : option Q -> option Q -> string -> bool;
  compiles : string -> bool;
  findProperties : Filter -> list Property.t;
  sortProperties : Sort -> list Property.t -> list Property.t;
  findUsers : Filter -> list User.t;
  sortUsers : Sort -> list User.t -> list User.t }.

(** [Model.find(filter).sort(sort).skip(skip).limit(limit)] *)
Definition run {D} (find : Filter -> list D) (sort : Sort -> list D -> list D)
    (q : Query) : option (list D) :=
  limit (q_limit q) <$> skip (q_skip q) (sort (q_sort q) (find (q_filter q))).

(** [Model.countDocuments(filter)] *)
Definition countDocuments {D} (find : Filter -> list D) (f : Filter) : Z :=
  Z.of_nat (length (find f)).

Record Db := { users : gmap string User.t; properties : gmap string Property.t }.

Definition put_user (k : string) (u : User.t) (db : Db) : Db :=
  {| users := <[k := u]> (users db); properties := properties db |}.

Definition put_property (k : string) (p : Property.t) (db : Db) : Db :=
  {| users := users db; properties := <[k := p]> (properties db) |}.

End Mongo.

(** ** Document ids *)

Module ObjectId.

Definition is_hex (c : ascii) : bool :=
  match JS.digit_val 16 c with Some _ => true | None => false end.

Fixpoint all_hex (s : string) : bool :=
  match s with
  | String c r => is_hex c && all_hex r
  | EmptyString => true
  end.

Definition lower (c : ascii) : ascii :=
  let n := N_of_ascii c in
  if ((65 <=? n) && (n <=? 90))%N then ascii_of_N (n + 32) else c.

Fixpoint toLowerCase (s : string) : string :=
  match s with
  | String c r => String (lower c) (toLowerCase r)
  | EmptyString => EmptyString
  end.

(** The id a query condition on [_id] is cast to: a string of 24
    hexadecimal digits, in either case, stands for the id its digits
    spell, which [toString()] writes in lower case, the form the ids of
    a collection are kept in here; another string is not an id and the
    query throws. *)
Definition cast (s : string) : option string :=
  if (String.length s =? 24)%nat && all_hex s then Some (toLowerCase s) else None.

End ObjectId.

(** ** middleware/auth.js *)

Module Auth.

Import Http.

(** What the [try] block of [protect] makes of the request's Authorization
    header or cookie: nothing; a token for which [jwt.verify], or the
    lookup of its user, threw (one handler catches both); or the [id]
    claim of an accepted token whose lookup returned. *)
Inductive Token := NoToken | BadToken | Verified (id : string).

Definition protect {A} (users : gmap string User.t) (token : Token)
    : User.t + Response A :=
  match token with
  | NoToken => inr (Refuse 401 "Access denied. No token provided.")
  | BadToken => inr (Refuse 401 "Invalid token")
  | Verified uid =>
      match users !! uid with
      | None => inr (Refuse 401 "Token is valid but user not found")
      | Some user =>
          if negb (User.isActive user)
          then inr (Refuse 401 "User account is deactivated")
          else inl user
      end
  end.

Definition requireAgent {A} (user : User.t) : option (Response A) :=
  if negb (User.isAgent user)
  then Some (Refuse 403 "Access denied. Agent privileges required.")
  else None.

Definition optionalAuth (users : gmap string User.t) (token : Token)
    : option User.t :=
  match token with
  | Verified uid =>
      match users !! uid with
      | Some user => if User.isActive user then Some user else None
      | None => None
      end
  | _ => None
  end.

(** The ownership check shared by the property and image handlers:
    [property.agent.toString() !== req.user.id && req.user.role !== 'admin']. *)
Definition not_owner_nor_admin (property : Property.t) (user : User.t) : bool :=
  negb (String.eqb (Property.agent property) (User.id user))
  && negb (String.eqb (User.role user) "admin").

End Auth.

(** ** routes/properties.js

    The property routes; their text follows the middleware's in
    middleware/auth.js. *)

Module Properties.

Import Http Mongo Validator.

Abbreviation Params := (gmap string string).

(** [if (x) filter[k] = f(x)] *)
Definition assign_if (x : option string) (k : string) (f : string -> Cond)
    (filter : Filter) : Filter :=
  match JS.truthy x with
  | Some v => <[k := f v]> filter
  | None => filter
  end.

Definition list_chains (env : Env) : list chain :=
  [ Chain "page" true (isInt (Some 1) None);
    Chain "limit" true (isInt (Some 1) (Some 50));
    Chain "type" true
      (isIn ["apartment"; "house"; "condo"; "townhouse"; "land"; "commercial";
             "office"; "warehouse"]);
    Chain "listingType" true (isIn ["sale"; "rent"; "lease"]);
    Chain "minPrice" true (isFloat env (Some 0%Q) None);
    Chain "maxPrice" true (isFloat env (Some 0%Q) None);
    Chain "city" true isString;
    Chain "state" true isString;
    Chain "bedrooms" true (isInt (Some 0) None);
    Chain "bathrooms" true (isInt (Some 0) None);
    Chain "sortBy" true (isIn ["price"; "createdAt"; "views"; "area"]);
    Chain "sortOrder" true (isIn ["asc"; "desc"]) ].

(** The filter object of [GET /api/properties], as it is built when no
    [new RegExp] throws. *)
Definition list_filter (env : Env) (query : Params) : Filter :=
  let filter : Filter := {[ "status" := Is "active" ]} in
  let filter := assign_if (query !! "type") "type" Is filter in
  let filter := assign_if (query !! "listingType") "listingType" Is filter in
  let filter := assign_if (query !! "city") "address.city" RegExp_i filter in
  let filter := assign_if (query !! "state") "address.state" RegExp_i filter in
  let filter := assign_if (query !! "bedrooms") "specifications.bedrooms"
                  (fun v => Range (Some (of_int (JS.parseInt v))) None) filter in
  let filter := assign_if (query !! "bathrooms") "specifications.bathrooms"
                  (fun v => Range (Some (of_int (JS.parseInt v))) None) filter in
  let filter :=
    match JS.truthy (query !! "minPrice"), JS.truthy (query !! "maxPrice") with
    | None, None => filter
    | minPrice, maxPrice =>
        <["price.amount" := Range (parseFloat env <$> minPrice) (parseFloat env <$> maxPrice)]>
          filter
    end in
  assign_if (query !! "search") "$or"
    (fun v => AnyOf [ ("title", RegExp_i v); ("description", RegExp_i v);
                      ("address.city", RegExp_i v); ("address.state", RegExp_i v) ])
    filter.

(** [req.query.sortOrder === 'asc' ? 1 : -1] *)
Definition sortOrder (query : Params) : Z :=
  match query !! "sortOrder" with
  | Some order => if String.eqb order "asc" then 1 else -1
  | None => -1
  end.

(** The sort object of [GET /api/properties]. *)
Definition list_sort (query : Params) : Sort :=
  match JS.truthy (query !! "sortBy") with
  | Some sortBy =>
      if String.eqb sortBy "price" then [("price.amount", sortOrder query)]
      else if String.eqb sortBy "area" then [("specifications.area.value", sortOrder query)]
      else [(sortBy, sortOrder query)]
  | None => [("featured", -1); ("createdAt", -1)]
  end.

(** The three lines every paginated handler starts with:
<<
  const page = parseInt(req.query.page) || 1;
  const limit = parseInt(req.query.limit) || 10;
  const skip = (page - 1) * limit;
>> *)
Definition pager (query : Params) : Z * Z * Z :=
  let page := JS.parseInt_or (query !! "page") 1 in
  let limit := JS.parseInt_or (query !! "limit") 10 in
  let skip := JS.Number_of (JS.Number_of (page - 1) * limit) in
  (page, limit, skip).

(** Run the query and build the listing; a query the engine refuses goes
    to [next(error)]. *)
Definition listing {D} (find : Filter -> list D) (sort : Sort -> list D -> list D)
    (filter : Filter) (order : Sort) (query : Params) : Response (Listing D) :=
  let '(page, limit, skip) := pager query in
  match run find sort
          {| q_filter := filter; q_sort := order; q_skip := skip; q_limit := limit |} with
  | None => next_error
  | Some found =>
      let total := countDocuments find filter in
      Json 200 {| count := Z.of_nat (length found); total := total; page := page;
                  pages := JS.Math_ceil (JS.div (inject_Z total) (inject_Z limit));
                  docs := found |}
  end.

(** The strings the handler makes a pattern of: [list_filter] is the
    filter when each of them compiles; when one does not, [new RegExp]
    throws and no filter is built. *)
Definition patterns (query : Params) : list string :=
  omap (fun k => JS.truthy (query !! k)) ["city"; "state"; "search"].

(** [GET /api/properties]; [optionalAuth] runs but the handler does not
    read [req.user].  What is thrown on the way goes to [next(error)]. *)
Definition get_properties (env : Env) (query : Params) : Response (Listing Property.t) :=
  if negb (isEmpty (list_chains env) query) then validation_errors
  else if negb (forallb (compiles env) (patterns query)) then next_error
  else listing (findProperties env) (sortProperties env)
         (list_filter env query) (list_sort query) query.

(** [GET /api/properties/:id] *)
Definition get_property (now : Date) (db : Db) (token : Auth.Token) (id : string)
    : Response Property.t * Db :=
  let user := Auth.optionalAuth (users db) token in
  match properties db !! id with
  | None => (Refuse 404 "Property not found", db)
  | Some property =>
      (* populate('agent', ...): [property.agent] becomes the agent's
         document, or null when the collection has none with that id *)
      let agent := users db !! Property.agent property in
      match user, agent with
      | Some _, None =>
          (* [property.agent._id] of null throws *)
          (next_error, db)
      | _, _ =>
          if match user with
             | None => true
             | Some u => negb (String.eqb (User.id u) (Property.agent property))
             end
          then
            let property := Property.incrementViews now property in
            (Json 200 property, put_property id property db)
          else (Json 200 property, db)
      end
  end.

(** The filter object of [GET /api/properties/agent/my-properties]. *)
Definition my_filter (user : User.t) (query : Params) : Filter :=
  let filter : Filter := {[ "agent" := Is (User.id user) ]} in
  assign_if (query !! "status") "status" Is filter.

(** [GET /api/properties/agent/my-properties] *)
Definition get_my_properties (env : Env) (db : Db) (token : Auth.Token) (query : Params)
    : Response (Listing Property.t) :=
  match Auth.protect (users db) token with
  | inr refusal => refusal
  | inl user =>
      match Auth.requireAgent user with
      | Some refusal => refusal
      | None =>
          listing (findProperties env) (sortProperties env)
            (my_filter user query) [("createdAt", -1)] query
      end
  end.

(** [PUT /api/properties/:id/status] *)
Definition put_status (now : Date) (db : Db) (token : Auth.Token) (id : string)
    (body : Params) : Response Property.t * Db :=
  match Auth.protect (users db) token with
  | inr refusal => (refusal, db)
  | inl user =>
      if negb (isEmpty [Chain "status" false (isIn Property.status_enum)] body)
      then (validation_errors, db)
      else
        match properties db !! id with
        | None => (Refuse 404 "Property not found", db)
        | Some property =>
            if Auth.not_owner_nor_admin property user
            then (Refuse 403 "Not authorized to update this property", db)
            else
              let property' :=
                Property.save now property
                  (Property.set_status (default "" (body !! "status")) property) in
              (Json 200 property', put_property id property' db)
        end
  end.

End Properties.

(** ** routes/agents.js *)

Module Agents.

Import Http Mongo Validator.

Abbreviation Params := (gmap string string).

Definition list_chains (env : Env) : list chain :=
  [ Chain "page" true (isInt (Some 1) None);
    Chain "limit" true (isInt (Some 1) (Some 50));
    Chain "specialization" true
      (isIn ["residential"; "commercial"; "land"; "luxury"; "rental"]);
    Chain "city" true isString;
    Chain "minRating" true (isFloat env (Some 0%Q) (Some 5%Q));
    Chain "sortBy" true (isIn ["rating"; "experience"; "transactions"; "createdAt"]);
    Chain "sortOrder" true (isIn ["asc"; "desc"]) ].

(** The filter object of [GET /api/agents], as it is built when no
    [new RegExp] throws. *)
Definition list_filter (env : Env) (query : Params) : Filter :=
  let filter : Filter :=
    <["agentProfile.isVerified" := IsBool true]>
      (<["isActive" := IsBool true]> {[ "isAgent" := IsBool true ]}) in
  let filter := Properties.assign_if (query !! "specialization")
                  "agentProfile.specialization" Is filter in
  let filter := Properties.assign_if (query !! "city")
                  "agentProfile.address.city" RegExp_i filter in
  let filter := Properties.assign_if (query !! "minRating")
                  "agentProfile.rating.average"
                  (fun v => Range (Some (parseFloat env v)) None) filter in
  Properties.assign_if (query !! "search") "name" RegExp_i filter.

(** The sort object of [GET /api/agents]. *)
Definition list_sort (query : Params) : Sort :=
  match JS.truthy (query !! "sortBy") with
  | Some sortBy =>
      let sortOrder := Properties.sortOrder query in
      if String.eqb sortBy "rating" then [("agentProfile.rating.average", sortOrder)]
      else if String.eqb sortBy "experience" then [("agentProfile.experience", sortOrder)]
      else if String.eqb sortBy "transactions"
           then [("agentProfile.totalTransactions", sortOrder)]
      else [(sortBy, sortOrder)]
  | None => [("agentProfile.rating.average", -1); ("agentProfile.totalTransactions", -1)]
  end.

(** The strings the handler makes a pattern of. *)
Definition patterns (query : Params) : list string :=
  omap (fun k => JS.truthy (query !! k)) ["city"; "search"].

(** [GET /api/agents] *)
Definition get_agents (env : Env) (query : Params) : Response (Listing User.t) :=
  if negb (isEmpty (list_chains env) query) then validation_errors
  else if negb (forallb (compiles env) (patterns query)) then next_error
  else Properties.listing (findUsers env) (sortUsers env)
         (list_filter env query) (list_sort query) query.

(** [isLength({ max })] *)
Definition isLength_max (max : nat) (s : string) : bool :=
  (Text.characters s <=? max)%nat.

(** [POST /api/agents/:id/rate].  The agent is found by a query, which
    casts [req.params.id] to an id; the check that follows compares the
    string [req.params.id] itself with the requester's id.  A rating that
    parses to NaN cannot be stored in a Number path: the save throws, as it
    does when a validator fails, and [next(error)] answers. *)
Definition rate_agent (env : Env) (now : Date) (db : Db) (token : Auth.Token)
    (id : string) (body : Params) : Response unit * Db :=
  match Auth.protect (users db) token with
  | inr refusal => (refusal, db)
  | inl user =>
      if negb (isEmpty [ Chain "rating" false (isFloat env (Some 1%Q) (Some 5%Q));
                         Chain "comment" true (isLength_max 500) ] body)
      then (validation_errors, db)
      else
        match ObjectId.cast id with
        | None => (next_error, db)
        | Some _id =>
            match users db !! _id with
            | None => (Refuse 404 "Agent not found", db)
            | Some agent =>
                if negb (User.isAgent agent && User.isActive agent)
                then (Refuse 404 "Agent not found", db)
                else if String.eqb (User.id user) id
                then (Refuse 400 "You cannot rate yourself", db)
                else
                  match parseFloat env (default "" (body !! "rating")) with
                  | NaN => (next_error, db)
                  | Num rating =>
                      match User.updateRating now rating agent with
                      | Some agent' => (Json 200 tt, put_user _id agent' db)
                      | None => (next_error, db)
                      end
                  end
            end
        end
  end.

End Agents.

(** ** routes/upload.js *)

Module Upload.

Import Http Mongo.

(** One file of [req.files], with what the process learns about it from
    outside: the [public_id] and [secure_url] that [uploadToCloudinary]
    resolves to ([None] when it rejects), and the [_id] the new image
    sub-document is given. *)
Record File := { stored : option (string * string); oid : string }.

(** What the delete handler does outside the database, in order. *)
Inductive Event :=
| Destroy (public_id : string)      (* cloudinary.uploader.destroy(public_id) *)
| ConsoleError (what : string).     (* console.error(what, cloudinaryError) *)

Definition set_isPrimary (b : bool) (img : Property.Image) : Property.Image :=
  {| Property.image_id := Property.image_id img;
     Property.public_id := Property.public_id img;
     Property.url := Property.url img;
     Property.caption := Property.caption img;
     Property.isPrimary := b |}.

Definition set_caption (c : option string) (img : Property.Image) : Property.Image :=
  {| Property.image_id := Property.image_id img;
     Property.public_id := Property.public_id img;
     Property.url := Property.url img;
     Property.caption := c;
     Property.isPrimary := Property.isPrimary img |}.

(** [property.images.findIndex(img => img._id.toString() === imageId)];
    [None] is -1. *)
Definition findIndex (imageId : string) (images : list Property.Image) : option nat :=
  fst <$> list_find (fun img => Property.image_id img = imageId) images.

(** The callback of [req.files.map]: the image built for the file at
    [index], against the image list as it is before the push. *)
Definition uploaded_image (existing : list Property.Image)
    (captions : option (list string)) (index : nat) (file : File)
    : option Property.Image :=
  '(public_id, secure_url) ← stored file;
  Some {| Property.image_id := oid file;
          Property.public_id := public_id;
          Property.url := secure_url;
          Property.caption :=
            match captions with Some cs => cs !! index | None => Some "" end;
          Property.isPrimary := (index =? 0)%nat && (length existing =? 0)%nat |}.

(** [POST /api/upload/property-images/:propertyId]; a rejected upload
    rejects [Promise.all] and nothing is saved. *)
Definition post_property_images (now : Date) (db : Db) (token : Auth.Token)
    (propertyId : string) (files : list File) (captions : option (list string))
    : Response (list Property.Image * Z) * Db :=
  match Auth.protect (users db) token with
  | inr refusal => (refusal, db)
  | inl user =>
      match Auth.requireAgent user with
      | Some refusal => (refusal, db)
      | None =>
          match properties db !! propertyId with
          | None => (Refuse 404 "Property not found", db)
          | Some property =>
              if Auth.not_owner_nor_admin property user
              then (Refuse 403 "Not authorized to upload images for this property", db)
              else if (length files =? 0)%nat
              then (Refuse 400 "No images uploaded", db)
              else
                match mapM id (imap (uploaded_image (Property.images property) captions)
                                 files) with
                | None => (next_error, db)
                | Some uploadedImages =>
                    let images := (Property.images property ++ uploadedImages)%list in
                    let property' :=
                      Property.save now property (Property.set_images images property) in
                    (Json 200 (uploadedImages, Z.of_nat (length images)),
                     put_property propertyId property' db)
                end
          end
      end
  end.

(** The image list after the two optional updates of the PUT handler;
    [isPrimary] says whether [req.body.isPrimary === true]. *)
Definition update_image (imageIndex : nat) (caption : option string) (isPrimary : bool)
    (images : list Property.Image) : list Property.Image :=
  let images :=
    match caption with
    | Some c => alter (set_caption (Some c)) imageIndex images
    | None => images
    end in
  if isPrimary
  then alter (set_isPrimary true) imageIndex (set_isPrimary false <$> images)
  else images.

(** [PUT /api/upload/property-images/:propertyId/:imageId] *)
Definition put_property_image (now : Date) (db : Db) (token : Auth.Token)
    (propertyId imageId : string) (caption : option string) (isPrimary : bool)
    : Response (option Property.Image) * Db :=
  match Auth.protect (users db) token with
  | inr refusal => (refusal, db)
  | inl user =>
      match properties db !! propertyId with
      | None => (Refuse 404 "Property not found", db)
      | Some property =>
          if Auth.not_owner_nor_admin property user
          then (Refuse 403 "Not authorized to update images for this property", db)
          else
            match findIndex imageId (Property.images property) with
            | None => (Refuse 404 "Image not found", db)
            | Some imageIndex =>
                let images :=
                  update_image imageIndex caption isPrimary (Property.images property) in
                let property' :=
                  Property.save now property (Property.set_images images property) in
                (Json 200 (images !! imageIndex), put_property propertyId property' db)
            end
      end
  end.

(** The image list after [splice(imageIndex, 1)] and the promotion that
    follows it. *)
Definition remove_image (imageIndex : nat) (imageToDelete : Property.Image)
    (images : list Property.Image) : list Property.Image :=
  let images := delete imageIndex images in
  if Property.isPrimary imageToDelete && (0 <? length images)%nat
  then alter (set_isPrimary true) 0%nat images
  else images.

(** [DELETE /api/upload/property-images/:propertyId/:imageId];
    [destroyed] says whether the media host's [destroy] resolved. *)
Definition delete_property_image (now : Date) (db : Db) (token : Auth.Token)
    (propertyId imageId : string) (destroyed : bool)
    : Response Z * Db * list Event :=
  match Auth.protect (users db) token with
  | inr refusal => (refusal, db, [])
  | inl user =>
      match properties db !! propertyId with
      | None => (Refuse 404 "Property not found", db, [])
      | Some property =>
          if Auth.not_owner_nor_admin property user
          then (Refuse 403 "Not authorized to delete images for this property", db, [])
          else
            match list_find (fun img => Property.image_id img = imageId)
                    (Property.images property) with
            | None => (Refuse 404 "Image not found", db, [])
            | Some (imageIndex, imageToDelete) =>
                let events :=
                  Destroy (Property.public_id imageToDelete)
                  :: (if destroyed then []
                      else [ConsoleError "Error deleting from Cloudinary:"]) in
                let images :=
                  remove_image imageIndex imageToDelete (Property.images property) in
                let property' :=
                  Property.save now property (Property.set_images images property) in
                (Json 200 (Z.of_nat (length images)),
                 put_property propertyId property' db, events)
            end
      end
  end.

(** How many images of a list are flagged primary. *)
Definition primaries (images : list Property.Image) : nat :=
  length (List.filter Property.isPrimary images).

End Upload.

(** ** Notions the statements below are phrased in *)

(** The unit roundoff of a Number, 2^-53: rounding moves a real by no
    more than this fraction of it. *)
Definition unit_roundoff : Q := 1 # 9007199254740992.

Definition sum (l : list Q) : Q := fold_right Qplus 0%Q l.

(** The arithmetic mean; of the empty list it is 0. *)
Definition mean (l : list Q) : Q := (sum l / inject_Z (Z.of_nat (length l)))%Q.

(** [r] is the rating state reached from the schema default by the
    ratings [seen]: it has counted them, its average is in the range the
    schema allows, and the total the average stands for is off by no more
    than the roundings of the steps taken add up to. *)
Definition tracks (r : User.Rating) (seen : list Q) : Prop :=
  let n := inject_Z (Z.of_nat (length seen)) in
  User.count r = Z.of_nat (length seen)
  /\ (0 <= User.average r <= 5)%Q
  /\ (Qabs (User.average r * inject_Z (User.count r) - sum seen)
      <= (15 # 2) * unit_roundoff * n * (n + 1))%Q.

(** Submitting the ratings in order, each saved at its own time; [None]
    when a save throws. *)
Definition submit_all (this : User.t) (ratings : list (Date * Q)) : option User.t :=
  fold_left (fun agent '(now, r) => agent ≫= User.updateRating now r) ratings
    (Some this).

(** The number a pagination parameter asks for, as the validator reads
    it; [d] when the parameter is not sent. *)
Definition requested (x : option string) (d : Z) : option Z :=
  match x with
  | Some s => Validator.int_string s
  | None => Some d
  end.

(** Which request parameter accounts for which key of the public
    listing's filter. *)
Definition list_filter_keys : list (string * string) :=
  [ ("type", "type"); ("listingType", "listingType"); ("city", "address.city");
    ("state", "address.state"); ("bedrooms", "specifications.bedrooms");
    ("bathrooms", "specifications.bathrooms"); ("minPrice", "price.amount");
    ("maxPrice", "price.amount"); ("search", "$or") ].

(** The sort keys that stand for a nested path, per listing. *)
Definition property_sort_paths : list (string * string) :=
  [ ("price", "price.amount"); ("area", "specifications.area.value") ].

Definition agent_sort_paths : list (string * string) :=
  [ ("rating", "agentProfile.rating.average");
    ("experience", "agentProfile.experience");
    ("transactions", "agentProfile.totalTransactions") ].

(** At most one image of the property is flagged primary. *)
Definition single_primary (p : Property.t) : Prop :=
  (Upload.primaries (Property.images p) <= 1)%nat.

Definition all_single_primary (db : Mongo.Db) : Prop :=
  forall id p, Mongo.properties db !! id = Some p -> single_primary p.




(** ** Concrete documents, used to run the handlers *)

Module Sample.

Import Mongo.

Definition profile (r : User.Rating) : User.AgentProfile :=
  {| User.licenseNumber := None; User.experience := Some 4;
     User.specialization := ["residential"]; User.bio := None; User.phone := None;
     User.address := {| User.street := None; User.city := Some "Delhi";
                        User.state := None; User.zipCode := None;
                        User.country := None |};
     User.profileImage := None; User.rating := r; User.totalTransactions := 0;
     User.isVerified := true; User.verificationDocuments := [] |}.

Definition person (id role : string) (isAgent : bool) : User.t :=
  {| User.id := id; User.name := id; User.email := id ++ "@example.com";
     User.role := role;
     User.isAgent := isAgent; User.agentProfile := profile User.rating_default;
     User.isActive := true; User.createdAt := 0; User.updatedAt := 0 |}.

Definition asha : User.t := person "a1" "agent" true.
Definition ravi : User.t := person "a2" "agent" true.
Definition uma : User.t := person "u1" "user" false.
Definition root : User.t := person "r1" "admin" false.

Definition image (id : string) (isPrimary : bool) : Property.Image :=
  {| Property.image_id := id; Property.public_id := "properties/" ++ id;
     Property.url := "https://img/" ++ id; Property.caption := None;
     Property.isPrimary := isPrimary |}.

Definition listed (id agent status : string) (images : list Property.Image)
    : Property.t :=
  {| Property.id := id; Property.title := "Two bedroom flat";
     Property.description := "Near the metro";
     Property.type := "apartment"; Property.listingType := "sale";
     Property.price := {| Property.amount := 100000; Property.currency := "INR";
                          Property.priceType := "total" |};
     Property.address := {| Property.street := "1 Main Road"; Property.city := "Delhi";
                            Property.state := "Delhi"; Property.zipCode := "110001";
                            Property.country := "India";
                            Property.coordinates := None |};
     Property.specifications :=
       {| Property.bedrooms := 2; Property.bathrooms := 1;
          Property.area_value := 900; Property.area_unit := "sqft";
          Property.floors := None; Property.parking := 0;
          Property.furnished := "unfurnished"; Property.yearBuilt := None |};
     Property.amenities := []; Property.images := images; Property.agent := agent;
     Property.contactInfo := {| Property.contact_phone := "919999999999";
                                Property.contact_email := None;
                                Property.whatsapp := None |};
     Property.status := status; Property.featured := false; Property.views := 7;
     Property.inquiries := []; Property.tags := []; Property.seoTitle := None;
     Property.seoDescription := None; Property.isVerified := false;
     Property.verificationDocuments := [];
     Property.analytics := {| Property.impressions := 7; Property.clicks := 0;
                              Property.saves := 0 |};
     Property.createdAt := 0; Property.updatedAt := 0 |}.

Definition flat : Property.t :=
  listed "p1" "a1" "sold" [image "i1" true; image "i2" false; image "i3" false].

Definition plot : Property.t := listed "p2" "a1" "draft" [].

Definition db : Db :=
  {| users := <["a1" := asha]> (<["a2" := ravi]> (<["u1" := uma]> {["r1" := root]}));
     properties := <["p1" := flat]> {["p2" := plot]} |}.

(** Two agents, a user, an admin and two properties of the first agent,
    under ids of the form the collections give out. *)
Definition meera : User.t := person "64b7f3a2c9e1d40012ab34cd" "agent" true.
Definition kiran : User.t := person "64b7f3a2c9e1d40012ab34ce" "agent" true.
Definition tara : User.t := person "64b7f3a2c9e1d40012ab34cf" "user" false.
Definition devi : User.t := person "64b7f3a2c9e1d40012ab34d0" "admin" false.

Definition villa : Property.t :=
  listed "64b7f3a2c9e1d40012ab3501" "64b7f3a2c9e1d40012ab34cd" "sold"
    [image "64b7f3a2c9e1d40012ab3601" true; image "64b7f3a2c9e1d40012ab3602" false].

Definition site : Property.t :=
  listed "64b7f3a2c9e1d40012ab3502" "64b7f3a2c9e1d40012ab34cd" "draft" [].

Definition registry : Db :=
  {| users := <["64b7f3a2c9e1d40012ab34cd" := meera]>
                (<["64b7f3a2c9e1d40012ab34ce" := kiran]>
                   (<["64b7f3a2c9e1d40012ab34cf" := tara]>
                      {["64b7f3a2c9e1d40012ab34d0" := devi]}));
     properties := <["64b7f3a2c9e1d40012ab3501" := villa]>
                     {["64b7f3a2c9e1d40012ab3502" := site]} |}.

(** An engine whose collection holds 120 copies of [flat], all selected
    by every filter and left in place by every sort, parsers that read
    every string as 3, and a pattern compiler that accepts every string
    but ["*"]. *)
Definition env : Env :=
  {| parseFloat := fun _ => Num 3;
     isFloat := fun _ _ _ => true;
     compiles := fun s => negb (String.eqb s "*");
     findProperties := fun _ => replicate 120 flat;
     sortProperties := fun _ l => l;
     findUsers := fun _ => [asha; ravi];
     sortUsers := fun _ l => l |}.

End Sample.

(** ** middleware/auth.js and public/assets/js/api.js: from the stored
    token to [req.user] *)

Module Credentials.

Import Http.

(** What [protect] and [optionalAuth] read of a request. *)
Record t := { authorization : option string; cookie_token : option string }.

(** The token both middlewares settle on, [None] when [!token]:
<<
  if (req.headers.authorization && req.headers.authorization.startsWith('Bearer'))
    token = req.headers.authorization.split(' ')[1];
  else if (req.cookies && req.cookies.token)
    token = req.cookies.token;
>> *)
Definition token_of (c : t) : option string :=
  match JS.truthy (authorization c) with
  | Some header =>
      if Text.startsWith "Bearer" header
      then JS.truthy (Text.split " " header !! 1%nat)
      else JS.truthy (cookie_token c)
  | None => JS.truthy (cookie_token c)
  end.

(** The token after [jwt.verify], whose answer ([Some id] for an accepted
    token) is an input. *)
Definition resolve (verify : string -> option string) (c : t) : Auth.Token :=
  match token_of c with
  | None => Auth.NoToken
  | Some token =>
      match verify token with
      | Some id => Auth.Verified id
      | None => Auth.BadToken
      end
  end.

(** [authorize(...roles)] *)
Definition authorize {A} (roles : list string) (user : option User.t)
    : option (Response A) :=
  match user with
  | None => Some (Refuse 401 "Access denied. Not authenticated.")
  | Some u =>
      if negb (existsb (String.eqb (User.role u)) roles)
      then Some (Refuse 403 ("Access denied. Role '" ++ User.role u
                             ++ "' is not authorized to access this resource."))
      else None
  end.

(** [protect, authorize('admin')], the head of every admin route. *)
Definition admin_only {A} (users : gmap string User.t) (token : Auth.Token)
    : User.t + Response A :=
  match Auth.protect users token with
  | inr refusal => inr refusal
  | inl user =>
      match authorize ["admin"] (Some user) with
      | Some refusal => inr refusal
      | None => inl user
      end
  end.

End Credentials.

Module Client.

(** The Authorization header [apiRequest] sends for the token in local
    storage: none when [!token]. *)
Definition authorization (token : option string) : option string :=
  (fun t => "Bearer " ++ t) <$> JS.truthy token.

(** The message of the error [apiRequest] throws for a response that is
    not ok: [data.message || 'Something went wrong']. *)
Definition error_message (message : option string) : string :=
  default "Something went wrong" (JS.truthy message).

(** The stored token after [handleAPIError]. *)
Definition handleAPIError (message : string) (stored : option string) : option string :=
  if String.eqb message "Invalid token" || String.eqb message "Token expired"
  then None else stored.

(** The message a refusal carries. *)
Definition message_of {A} (r : Http.Response A) : option string :=
  match r with
  | Http.Refuse _ m => Some m
  | Http.Json _ _ => None
  end.

End Client.

(** ** routes/properties.js: deleting a property, submitting an inquiry *)

Module PropertyWrites.

Import Http Mongo Validator.

Definition remove_property (k : string) (db : Db) : Db :=
  {| users := users db; properties := delete k (properties db) |}.

(** [DELETE /api/properties/:id] *)
Definition delete_property (db : Db) (token : Auth.Token) (id : string)
    : Response unit * Db :=
  match Auth.protect (users db) token with
  | inr refusal => (refusal, db)
  | inl user =>
      match properties db !! id with
      | None => (Refuse 404 "Property not found", db)
      | Some property =>
          if Auth.not_owner_nor_admin property user
          then (Refuse 403 "Not authorized to delete this property", db)
          else (Json 200 tt, remove_property id db)
      end
  end.

Definition set_inquiries (l : list Property.Inquiry) (this : Property.t) : Property.t :=
  {| Property.id := Property.id this; Property.title := Property.title this;
     Property.description := Property.description this;
     Property.type := Property.type this;
     Property.listingType := Property.listingType this;
     Property.price := Property.price this; Property.address := Property.address this;
     Property.specifications := Property.specifications this;
     Property.amenities := Property.amenities this;
     Property.images := Property.images this; Property.agent := Property.agent this;
     Property.contactInfo := Property.contactInfo this;
     Property.status := Property.status this; Property.featured := Property.featured this;
     Property.views := Property.views this;
     Property.inquiries := l;
     Property.tags := Property.tags this; Property.seoTitle := Property.seoTitle this;
     Property.seoDescription := Property.seoDescription this;
     Property.isVerified := Property.isVerified this;
     Property.verificationDocuments := Property.verificationDocuments this;
     Property.analytics := Property.analytics this;
     Property.createdAt := Property.createdAt this;
     Property.updatedAt := Property.updatedAt this |}.

(** [propertySchema.methods.addInquiry]:
<<
  this.inquiries.push(inquiryData);
  return this.save();
>> *)
Definition addInquiry (now : Date) (inquiryData : Property.Inquiry) (this : Property.t)
    : Property.t :=
  Property.save now this
    (set_inquiries (Property.inquiries this ++ [inquiryData])%list this).

Definition inquiry_chains (isEmail : string -> bool) : list chain :=
  [ Chain "message" false (Text.isLength 10 500);
    Chain "phone" true Text.phone;
    Chain "email" true isEmail ].

(** The sub-document pushed for a request: the three body fields, the
    requester when there is one, and the schema's [createdAt] default. *)
Definition inquiryData (now : Date) (user : option User.t) (body : gmap string string)
    : Property.Inquiry :=
  {| Property.inquiry_user := User.id <$> user;
     Property.message := body !! "message";
     Property.inquiry_phone := body !! "phone";
     Property.inquiry_email := body !! "email";
     Property.inquiry_createdAt := now |}.

(** [POST /api/properties/:id/inquiry]; validator.js's [isEmail] is an
    input. *)
Definition post_inquiry (isEmail : string -> bool) (now : Date) (db : Db)
    (token : Auth.Token) (id : string) (body : gmap string string)
    : Response unit * Db :=
  if negb (isEmpty (inquiry_chains isEmail) body) then (validation_errors, db)
  else
    let user := Auth.optionalAuth (users db) token in
    match properties db !! id with
    | None => (Refuse 404 "Property not found", db)
    | Some property =>
        (Json 200 tt,
         put_property id (addInquiry now (inquiryData now user body) property) db)
    end.

End PropertyWrites.

(** ** routes/agents.js: an agent's properties, the profile update, the
    dashboard's recent inquiries *)

Module AgentRoutes.

Import Http Mongo Validator.

Definition properties_chains : list chain :=
  [ Chain "page" true (isInt (Some 1) None);
    Chain "limit" true (isInt (Some 1) (Some 50));
    Chain "status" true (isIn Property.status_enum) ].

(** The filter object of [GET /api/agents/:id/properties]:
<<
  const filter = { agent: req.params.id };
  if (!req.user || req.user.id !== req.params.id) filter.status = 'active';
  else if (req.query.status) filter.status = req.query.status;
>> *)
Definition properties_filter (user : option User.t) (id : string)
    (query : gmap string string) : Filter :=
  let filter : Filter := {[ "agent" := Is id ]} in
  if match user with
     | None => true
     | Some u => negb (String.eqb (User.id u) id)
     end
  then <["status" := Is "active"]> filter
  else Properties.assign_if (query !! "status") "status" Is filter.

(** [GET /api/agents/:id/properties] *)
Definition get_agent_properties (env : Env) (db : Db) (token : Auth.Token)
    (id : string) (query : gmap string string) : Response (Listing Property.t) :=
  if negb (isEmpty properties_chains query) then validation_errors
  else
    Properties.listing (findProperties env) (sortProperties env)
      (properties_filter (Auth.optionalAuth (users db) token) id query)
      [("createdAt", -1)] query.

Definition allowedFields : list string :=
  ["experience"; "specialization"; "bio"; "phone"; "address"].

(** The update document of [PUT /api/agents/profile], for body values of
    any kind:
<<
  Object.keys(req.body).forEach(key => {
    if (allowedFields.includes(key))
      updateFields[`agentProfile.${key}`] = req.body[key];
  });
>> *)
Definition updateFields {V} (body : gmap string V) : gmap string V :=
  map_fold
    (fun key value updateFields =>
       if existsb (String.eqb key) allowedFields
       then <["agentProfile." ++ key := value]> updateFields
       else updateFields)
    ∅ body.

(** One entry of the dashboard's [flatInquiries]:
    [{...inquiry, propertyTitle, propertyId}]. *)
Record FlatInquiry := {
  inquiry : Property.Inquiry; propertyTitle : string; propertyId : string }.

Definition createdAt (f : FlatInquiry) : Date :=
  Property.inquiry_createdAt (inquiry f).

Definition flatten (recentInquiries : list Property.t) : list FlatInquiry :=
  flat_map
    (fun property =>
       (fun i => {| inquiry := i; propertyTitle := Property.title property;
                    propertyId := Property.id property |})
       <$> Property.inquiries property)
    recentInquiries.

(** Where [x] goes in a list already in order: after every entry at least
    as recent. *)
Fixpoint insert_recent (x : FlatInquiry) (l : list FlatInquiry) : list FlatInquiry :=
  match l with
  | [] => [x]
  | y :: r =>
      if createdAt x <=? createdAt y then y :: insert_recent x r
      else x :: l
  end.

(** [l.sort((a, b) => new Date(b.createdAt) - new Date(a.createdAt))]: the
    stable sort, most recent first, built by inserting the entries in
    their order of appearance. *)
Definition sort_recent (l : list FlatInquiry) : list FlatInquiry :=
  fold_left (fun sorted x => insert_recent x sorted) l [].

(** Lines 384-396 of the dashboard handler, on the documents its query
    found: flatten, sort, [slice(0, 5)]. *)
Definition recentInquiriesLimited (recentInquiries : list Property.t)
    : list FlatInquiry :=
  take 5 (sort_recent (flatten recentInquiries)).

End AgentRoutes.

(** ** routes/contact.js (its text follows routes/upload.js) *)

Module Contact.

Import Http Mongo Validator.

Definition list_chains : list chain :=
  [ Chain "page" true (isInt (Some 1) None);
    Chain "limit" true (isInt (Some 1) (Some 50));
    Chain "status" true (isIn ["new"; "in_progress"; "resolved"; "closed"]);
    Chain "type" true
      (isIn ["general"; "property_inquiry"; "agent_inquiry"; "support"; "partnership"]);
    Chain "priority" true (isIn ["low"; "medium"; "high"]) ].

(** The filter object of [GET /api/contact], as it is built when no
    [new RegExp] throws. *)
Definition list_filter (query : gmap string string) : Filter :=
  let filter : Filter := ∅ in
  let filter := Properties.assign_if (query !! "status") "status" Is filter in
  let filter := Properties.assign_if (query !! "type") "type" Is filter in
  let filter := Properties.assign_if (query !! "priority") "priority" Is filter in
  Properties.assign_if (query !! "search") "$or"
    (fun v => AnyOf [ ("name", RegExp_i v); ("email", RegExp_i v);
                      ("subject", RegExp_i v) ])
    filter.

(** [GET /api/contact], over any contact document type: the collection's
    matching and ordering are inputs. *)
Definition get_contacts {D} (find : Filter -> list D) (sort : Sort -> list D -> list D)
    (users : gmap string User.t) (token : Auth.Token) (query : gmap string string)
    : Response (Listing D) :=
  match Credentials.admin_only users token with
  | inr refusal => refusal
  | inl _ =>
      if negb (isEmpty list_chains query) then validation_errors
      else Properties.listing find sort (list_filter query) [("createdAt", -1)] query
  end.

End Contact.

(** ** routes/upload.js: what multer refuses *)

Module Multer.

Import Http.

(** An error reaching the router's error middleware. *)
Record Error := { isMulterError : bool; code : string; message : string }.

(** [fileFilter]: [None] accepts the file. *)
Definition fileFilter (mimetype : string) : option Error :=
  if Text.startsWith "image/" mimetype then None
  else Some {| isMulterError := false; code := "";
               message := "Not an image! Please upload only images." |}.

(** The router's error middleware; what it passes on ends in the
    application's handler. *)
Definition error_middleware (error : Error) : Response unit :=
  if isMulterError error && String.eqb (code error) "LIMIT_FILE_SIZE"
  then Refuse 400 "File too large. Maximum size is 10MB"
  else if isMulterError error && String.eqb (code error) "LIMIT_FILE_COUNT"
  then Refuse 400 "Too many files. Maximum is 10 files"
  else if String.eqb (message error) "Not an image! Please upload only images."
  then Refuse 400 "Only image files are allowed"
  else next_error.

End Multer.

(** ** Further notions *)

(** Which request parameter accounts for which key of the agent listing's
    filter, besides the three it always has. *)
Definition agent_filter_keys : list (string * string) :=
  [ ("specialization", "agentProfile.specialization");
    ("city", "agentProfile.address.city");
    ("minRating", "agentProfile.rating.average"); ("search", "name") ].

Definition agent_filter_fixed : list string :=
  ["isAgent"; "isActive"; "agentProfile.isVerified"].

(** [a] may stand before [b] when the most recent come first. *)
Definition newer_first (a b : AgentRoutes.FlatInquiry) : Prop :=
  AgentRoutes.createdAt b <= AgentRoutes.createdAt a.

(** The paths of a user document that the rating, the verification and
    the role live under. *)
Definition protected_paths : list string :=
  [ "agentProfile.rating"; "agentProfile.rating.average"; "agentProfile.rating.count";
    "agentProfile.isVerified"; "agentProfile.totalTransactions";
    "agentProfile.licenseNumber"; "agentProfile.verificationDocuments";
    "role"; "isAgent"; "isActive"; "password"; "email" ].


(** Which request parameter accounts for which key of the contact
    listing's filter. *)
Definition contact_filter_keys : list (string * string) :=
  [ ("status", "status"); ("type", "type"); ("priority", "priority");
    ("search", "$or") ].

(** * Properties *)

(** ** Numbers: what rounding to 53 bits keeps *)

Section Numbers.

Local Open Scope Q_scope.

Lemma pow2_pos (e : Z) : 0 < 2 ^ e.
Proof. apply Qpower_0_lt. reflexivity. Qed.

Lemma pow2_add (a b : Z) : 2 ^ (a + b) == 2 ^ a * 2 ^ b.
Proof. apply Qpower_plus. discriminate. Qed.

Lemma pow2_inject (e : Z) : (0 <= e)%Z -> 2 ^ e == inject_Z (2 ^ e).
Proof. intros H. symmetry. apply (Zpower_Qpower 2 e H). Qed.

Lemma pow2_le (a b : Z) : (a <= b)%Z -> 2 ^ a <= 2 ^ b.
Proof. intros H. apply Qpower_le_compat_l; [exact H | discriminate]. Qed.

Lemma pow2_succ (a : Z) : 2 ^ (a + 1) == 2 * 2 ^ a.
Proof. rewrite pow2_add. change (2 ^ 1) with 2. apply Qmult_comm. Qed.

Lemma ilog2_spec (x : Q) : 0 < x -> 2 ^ JS.ilog2 x <= x < 2 ^ (JS.ilog2 x + 1).
Proof.
  intros Hx. unfold JS.ilog2.
  set (a := Z.log2 (Qnum x)). set (b := Z.log2 (Z.pos (Qden x))).
  assert (Hn : (0 < Qnum x)%Z) by (unfold Qlt in Hx; simpl in Hx; lia).
  destruct (Z.log2_spec _ Hn) as [Ha1 Ha2]. fold a in Ha1, Ha2.
  destruct (Z.log2_spec (Z.pos (Qden x)) eq_refl) as [Hb1 Hb2]. fold b in Hb1, Hb2.
  assert (Ha0 : (0 <= a)%Z) by apply Z.log2_nonneg.
  assert (Hb0 : (0 <= b)%Z) by apply Z.log2_nonneg.
  assert (Hxd : inject_Z (Qnum x) == x * inject_Z (Z.pos (Qden x))).
  { destruct x as [n d]. unfold Qeq. simpl. lia. }
  rewrite Zle_Qle in Ha1, Hb1. rewrite Zlt_Qlt in Ha2, Hb2.
  unfold Z.succ in Ha2, Hb2.
  rewrite <- pow2_inject in Ha1, Hb1, Ha2, Hb2 by lia.
  rewrite pow2_succ in Ha2, Hb2.
  pose proof (pow2_pos a) as HA. pose proof (pow2_pos b) as HB.
  pose proof (pow2_pos (a - b)) as HG.
  assert (EG : 2 ^ (a - b) * 2 ^ b == 2 ^ a).
  { rewrite <- pow2_add. replace (a - b + b)%Z with a by lia. reflexivity. }
  set (A := 2 ^ a) in *. set (B := 2 ^ b) in *. set (G := 2 ^ (a - b)) in *.
  set (N := inject_Z (Qnum x)) in *. set (D := inject_Z (Z.pos (Qden x))) in *.
  destruct (Qle_bool G x) eqn:E.
  - apply Qle_bool_iff in E. split; [exact E|].
    rewrite pow2_succ. fold G. nra.
  - assert (E' : x < G).
    { apply Qnot_le_lt. intros H. apply Qle_bool_iff in H. congruence. }
    replace (a - b - 1 + 1)%Z with (a - b)%Z by lia. fold G. split; [|exact E'].
    assert (EG' : 2 * 2 ^ (a - b - 1) == G).
    { rewrite <- pow2_succ. replace (a - b - 1 + 1)%Z with (a - b)%Z by lia. reflexivity. }
    pose proof (pow2_pos (a - b - 1)) as HG'.
    set (G' := 2 ^ (a - b - 1)) in *. nra.
Qed.

Lemma round_half_even_floor (y : Q) :
  (Qfloor y <= JS.round_half_even y <= Qfloor y + 1)%Z.
Proof.
  unfold JS.round_half_even.
  destruct (y - inject_Z (Qfloor y) ?= 1 # 2); [destruct (Z.even _)| |]; lia.
Qed.

Lemma round_half_even_error (y : Q) :
  Qabs (inject_Z (JS.round_half_even y) - y) <= 1 # 2.
Proof.
  pose proof (Qfloor_le y) as Hlo. pose proof (Qlt_floor y) as Hhi.
  rewrite inject_Z_plus in Hhi. change (inject_Z 1) with 1 in Hhi.
  unfold JS.round_half_even. apply Qabs_Qle_condition.
  destruct (y - inject_Z (Qfloor y) ?= 1 # 2) eqn:E.
  - apply Qeq_alt in E.
    destruct (Z.even _); [|rewrite inject_Z_plus; change (inject_Z 1) with 1]; lra.
  - apply Qlt_alt in E. lra.
  - apply Qgt_alt in E. rewrite inject_Z_plus. change (inject_Z 1) with 1. lra.
Qed.

Lemma round_half_even_le (y : Q) (w : Z) :
  y <= inject_Z w -> (JS.round_half_even y <= w)%Z.
Proof.
  intros H. pose proof (Qfloor_le y) as Hlo.
  assert (Hf : (Qfloor y <= w)%Z) by (rewrite Zle_Qle; lra).
  unfold JS.round_half_even.
  destruct (y - inject_Z (Qfloor y) ?= 1 # 2) eqn:E.
  - destruct (Z.even _); [exact Hf|]. apply Qeq_alt in E.
    destruct (Z.eq_dec (Qfloor y) w) as [<-|Hne]; [lra | lia].
  - exact Hf.
  - apply Qgt_alt in E.
    destruct (Z.eq_dec (Qfloor y) w) as [<-|Hne]; [lra | lia].
Qed.

Lemma round_half_even_ge (y : Q) (w : Z) :
  inject_Z w <= y -> (w <= JS.round_half_even y)%Z.
Proof.
  intros H. pose proof (round_half_even_floor y) as [Hlo _].
  apply (Qfloor_resp_le _ _) in H. rewrite Qfloor_Z in H. lia.
Qed.

Lemma round_half_even_Z (k : Z) : JS.round_half_even (inject_Z k) = k.
Proof.
  apply Z.le_antisymm.
  - apply round_half_even_le, Qle_refl.
  - apply round_half_even_ge, Qle_refl.
Qed.

Lemma round_half_even_comp (x y : Q) :
  x == y -> JS.round_half_even x = JS.round_half_even y.
Proof.
  intros E. unfold JS.round_half_even. rewrite (Qfloor_comp _ _ E).
  assert (E' : x - inject_Z (Qfloor y) == y - inject_Z (Qfloor y)) by (rewrite E; reflexivity).
  rewrite (Qcompare_comp _ _ E' (1 # 2) (1 # 2) (Qeq_refl _)). reflexivity.
Qed.

Lemma fl_comp (x y : Q) : x == y -> JS.fl x = JS.fl y.
Proof. intros E. unfold JS.fl. rewrite (Qred_complete _ _ E). reflexivity. Qed.

Lemma fl_zero (x : Q) : x == 0 -> JS.fl x = 0.
Proof. intros E. rewrite (fl_comp _ _ E). reflexivity. Qed.

(** The shape of the Number nearest a positive real. *)
Lemma fl_pos (x : Q) :
  0 < x ->
  exists e : Z,
    JS.fl x == inject_Z (JS.round_half_even (x / 2 ^ e)) * 2 ^ e
    /\ 2 ^ (e + 52) <= x < 2 ^ (e + 53).
Proof.
  intros Hx. unfold JS.fl.
  pose proof (Qred_correct x) as Er. set (r := Qred x) in *.
  assert (Hr : 0 < r) by (rewrite Er; exact Hx).
  assert (Qeq_bool r 0 = false) as ->.
  { apply not_true_is_false. intros H. apply Qeq_bool_iff in H. lra. }
  assert (Qle_bool 0 r = true) as -> by (apply Qle_bool_iff; lra).
  assert (Ea : Qabs r == x) by (rewrite Qabs_pos by lra; exact Er).
  assert (Ha : 0 < Qabs r) by (rewrite Ea; exact Hx).
  exists (JS.ilog2 (Qabs r) - 52)%Z. set (e := (JS.ilog2 (Qabs r) - 52)%Z).
  pose proof (ilog2_spec _ Ha) as [H1 H2].
  replace (JS.ilog2 (Qabs r)) with (e + 52)%Z in H1 by (unfold e; lia).
  replace (JS.ilog2 (Qabs r) + 1)%Z with (e + 53)%Z in H2 by (unfold e; lia).
  rewrite Ea in H1, H2. split; [|split; assumption].
  rewrite Qred_correct.
  rewrite (round_half_even_comp (Qabs r / 2 ^ e) (x / 2 ^ e)) by (rewrite Ea; reflexivity).
  ring.
Qed.

Lemma fl_nonneg (x : Q) : 0 <= x -> 0 <= JS.fl x.
Proof.
  intros Hx. destruct (Qlt_le_dec 0 x) as [Hpos|Hle].
  - destruct (fl_pos x Hpos) as (e & -> & H1 & _).
    pose proof (pow2_pos e) as He. pose proof (pow2_pos (e + 52)) as He'.
    apply Qmult_le_0_compat; [|lra].
    change 0 with (inject_Z 0). rewrite <- Zle_Qle.
    apply round_half_even_ge. apply Qle_shift_div_l; [exact He | change (inject_Z 0) with 0; lra].
  - rewrite (fl_zero x) by lra. apply Qle_refl.
Qed.

Lemma pow2_53 : 2 ^ 53 == 9007199254740992.
Proof. reflexivity. Qed.

Lemma fl_error (x : Q) : 0 <= x -> Qabs (JS.fl x - x) <= x * unit_roundoff.
Proof.
  intros Hx. destruct (Qlt_le_dec 0 x) as [Hpos|Hle].
  - destruct (fl_pos x Hpos) as (e & -> & H1 & _).
    pose proof (pow2_pos e) as He.
    pose proof (round_half_even_error (x / 2 ^ e)) as Hm.
    set (m := inject_Z (JS.round_half_even (x / 2 ^ e))) in *.
    assert (Ey : x == (x / 2 ^ e) * 2 ^ e) by (field; lra).
    set (y := x / 2 ^ e) in *.
    assert (E52 : 2 ^ (e + 52) == 2 ^ e * 4503599627370496)
      by (rewrite pow2_add; reflexivity).
    apply Qabs_Qle_condition in Hm. apply Qabs_Qle_condition.
    unfold unit_roundoff. set (p := 2 ^ e) in *. rewrite E52 in H1.
    split.
    + apply (Qle_trans _ (- ((1 # 2) * p))); [|nra].
      assert (x * (1 # 9007199254740992) >= (1 # 2) * p) by nra. lra.
    + apply (Qle_trans _ ((1 # 2) * p)); [nra|].
      assert (x * (1 # 9007199254740992) >= (1 # 2) * p) by nra. lra.
  - assert (E0 : x == 0) by lra. rewrite (fl_zero x E0), E0. discriminate.
Qed.

Lemma fl_le_Z (x : Q) (z : Z) :
  (0 <= z <= 2 ^ 53)%Z -> x <= inject_Z z -> 0 <= x -> JS.fl x <= inject_Z z.
Proof.
  intros [Hz0 Hz] Hxz Hx. destruct (Qlt_le_dec 0 x) as [Hpos|Hle].
  2:{ rewrite (fl_zero x) by lra. unfold Qle; simpl; lia. }
  assert (Hz' : inject_Z z <= 9007199254740992) by (unfold Qle; simpl; lia).
  destruct (fl_pos x Hpos) as (e & E & H1 & H2).
  destruct (Z_le_gt_dec e 0) as [He|He].
  - rewrite E. pose proof (pow2_pos e) as Hp.
    assert (Ew : inject_Z z == inject_Z (z * 2 ^ (- e)) * 2 ^ e).
    { rewrite inject_Z_mult, <- (pow2_inject (- e)) by lia.
      rewrite <- Qmult_assoc, <- pow2_add. replace (- e + e)%Z with 0%Z by lia.
      change (2 ^ 0) with 1. ring. }
    rewrite Ew. apply Qmult_le_compat_r; [|lra].
    rewrite <- Zle_Qle. apply round_half_even_le.
    apply Qle_shift_div_r; [exact Hp|]. rewrite <- Ew. exact Hxz.
  - assert (H53 : 2 ^ 53 <= 2 ^ (e + 52)) by (apply pow2_le; lia).
    rewrite pow2_53 in H53.
    assert (Ex : x == 9007199254740992) by lra.
    rewrite (fl_comp _ _ Ex).
    change (JS.fl 9007199254740992) with (Qred 9007199254740992).
    rewrite Qred_correct. lra.
Qed.

Lemma fl_ge_Z (x : Q) (z : Z) :
  (0 <= z <= 2 ^ 53)%Z -> inject_Z z <= x -> inject_Z z <= JS.fl x.
Proof.
  intros [Hz0 Hz] Hzx.
  assert (Hz' : inject_Z z <= 9007199254740992) by (unfold Qle; simpl; lia).
  assert (Hz0' : 0 <= inject_Z z) by (unfold Qle; simpl; lia).
  destruct (Qlt_le_dec 0 x) as [Hpos|Hle].
  2:{ rewrite (fl_zero x) by lra. lra. }
  destruct (fl_pos x Hpos) as (e & E & H1 & H2).
  rewrite E. pose proof (pow2_pos e) as Hp.
  destruct (Z_le_gt_dec e 0) as [He|He].
  - assert (Ew : inject_Z z == inject_Z (z * 2 ^ (- e)) * 2 ^ e).
    { rewrite inject_Z_mult, <- (pow2_inject (- e)) by lia.
      rewrite <- Qmult_assoc, <- pow2_add. replace (- e + e)%Z with 0%Z by lia.
      change (2 ^ 0) with 1. ring. }
    rewrite Ew. apply Qmult_le_compat_r; [|lra].
    rewrite <- Zle_Qle. apply round_half_even_ge.
    apply Qle_shift_div_l; [exact Hp|]. rewrite <- Ew. exact Hzx.
  - assert (Hm : inject_Z 4503599627370496
                 <= inject_Z (JS.round_half_even (x / 2 ^ e))).
    { rewrite <- Zle_Qle. apply round_half_even_ge.
      apply Qle_shift_div_l; [exact Hp|].
      rewrite pow2_add in H1. change (2 ^ 52) with (inject_Z 4503599627370496) in H1.
      lra. }
    assert (H2e : 2 <= 2 ^ e).
    { change 2 with (2 ^ 1) at 1. apply pow2_le. lia. }
    set (m := inject_Z (JS.round_half_even (x / 2 ^ e))) in *.
    set (p := 2 ^ e) in *.
    change (inject_Z 4503599627370496) with 4503599627370496 in Hm. nra.
Qed.

Lemma Qred_inject_Z (z : Z) : Qred (inject_Z z) = inject_Z z.
Proof.
  unfold Qred, inject_Z.
  pose proof (Z.ggcd_correct_divisors z 1) as H.
  pose proof (Z.ggcd_gcd z 1) as Hg.
  destruct (Z.ggcd z 1) as [g [aa bb]]. simpl in *.
  rewrite Z.gcd_1_r in Hg. subst g. destruct H as [-> Hb].
  assert (bb = 1%Z) as -> by lia. f_equal. lia.
Qed.

Lemma fl_reduced (x : Q) : Qred (JS.fl x) = JS.fl x.
Proof.
  unfold JS.fl. destruct (Qeq_bool (Qred x) 0); [reflexivity|].
  apply Qred_complete, Qred_correct.
Qed.

(** Integers up to 2^53 are Numbers. *)
Lemma fl_Z (z : Z) : (0 <= z <= 2 ^ 53)%Z -> JS.fl (inject_Z z) = inject_Z z.
Proof.
  intros Hz. transitivity (Qred (inject_Z z)); [|apply Qred_inject_Z].
  rewrite <- fl_reduced. apply Qred_complete.
  apply Qle_antisym.
  - apply fl_le_Z; [exact Hz | apply Qle_refl |].
    unfold Qle; simpl; lia.
  - apply fl_ge_Z; [exact Hz | apply Qle_refl].
Qed.

Lemma Number_of_exact (z : Z) : (0 <= z <= 2 ^ 53)%Z -> JS.Number_of z = z.
Proof. intros Hz. unfold JS.Number_of. rewrite (fl_Z z Hz). apply Qfloor_Z. Qed.

End Numbers.

(** ** The rating aggregator *)

Section Rating.

Local Open Scope Q_scope.

Lemma sum_snoc (l : list Q) (x : Q) : sum (l ++ [x]) == sum l + x.
Proof.
  induction l as [|y l IH]; simpl.
  - ring.
  - rewrite IH. ring.
Qed.

Lemma inject_Z_nonneg (n : Z) : (0 <= n)%Z -> 0 <= inject_Z n.
Proof. intros H. unfold Qle. simpl. lia. Qed.

Lemma inject_Z_succ (n : Z) : inject_Z (n + 1) == inject_Z n + 1.
Proof. rewrite inject_Z_plus. reflexivity. Qed.

Lemma valid_average_iff (r : User.Rating) :
  User.valid_average r = true <-> 0 <= User.average r <= 5.
Proof.
  unfold User.valid_average. rewrite andb_true_iff, !Qle_bool_iff. reflexivity.
Qed.

Lemma tracks_default : tracks User.rating_default [].
Proof. repeat split; discriminate. Qed.

(** One step of the arithmetic: the count is exact, the average stays in
    the range the schema allows, and the total it stands for is off by
    three roundings at most. *)
Lemma foldRating_step (r : User.Rating) (x : Q) :
  (0 <= User.count r)%Z -> (5 * (User.count r + 1) <= 2 ^ 53)%Z ->
  0 <= User.average r <= 5 -> 1 <= x <= 5 ->
  User.count (User.foldRating r x) = (User.count r + 1)%Z
  /\ 0 <= User.average (User.foldRating r x) <= 5
  /\ Qabs (User.average (User.foldRating r x) * inject_Z (User.count r + 1)
           - (User.average r * inject_Z (User.count r) + x))
     <= 15 * unit_roundoff * inject_Z (User.count r + 1).
Proof.
  intros Hc Hn [Ha0 Ha5] [Hx1 Hx5]. unfold User.foldRating.
  cbn [User.count User.average].
  rewrite (Number_of_exact (User.count r + 1)) by lia.
  split; [reflexivity|].
  pose proof (inject_Z_nonneg _ Hc) as Hk.
  pose proof (inject_Z_succ (User.count r)) as EK.
  assert (E5k : inject_Z (5 * User.count r) == 5 * inject_Z (User.count r))
    by (rewrite inject_Z_mult; reflexivity).
  assert (E5K : inject_Z (5 * (User.count r + 1)) == 5 * inject_Z (User.count r + 1))
    by (rewrite inject_Z_mult; reflexivity).
  set (a := User.average r) in *. set (k := inject_Z (User.count r)) in *.
  set (K := inject_Z (User.count r + 1)) in *.
  unfold JS.div, JS.add, JS.mul.
  assert (Hak : 0 <= a * k) by nra.
  pose proof (fl_error _ Hak) as Et. pose proof (fl_nonneg _ Hak) as Ht0.
  assert (Ht5 : JS.fl (a * k) <= 5 * k).
  { rewrite <- E5k. apply fl_le_Z; [lia | rewrite E5k; nra | exact Hak]. }
  set (t := JS.fl (a * k)) in *.
  assert (Htx : 0 <= t + x) by lra.
  pose proof (fl_error _ Htx) as Es. pose proof (fl_nonneg _ Htx) as Hs0.
  assert (Hs5 : JS.fl (t + x) <= 5 * K).
  { rewrite <- E5K. apply fl_le_Z; [lia | rewrite E5K; lra | exact Htx]. }
  set (s := JS.fl (t + x)) in *.
  assert (HK : 0 < K) by lra.
  assert (Eq : (s / K) * K == s) by (field; lra).
  assert (Hq0 : 0 <= s / K) by (apply Qle_shift_div_l; [exact HK | lra]).
  assert (Hq5 : s / K <= 5) by (apply Qle_shift_div_r; [exact HK | lra]).
  pose proof (fl_error _ Hq0) as Ea. pose proof (fl_nonneg _ Hq0) as Ha'0.
  assert (Ha'5 : JS.fl (s / K) <= 5).
  { apply (fl_le_Z _ 5); [lia | exact Hq5 | exact Hq0]. }
  set (q := s / K) in *. set (a' := JS.fl q) in *.
  split; [split; assumption|].
  apply Qabs_Qle_condition in Et, Es, Ea. apply Qabs_Qle_condition.
  unfold unit_roundoff in *. split; nra.
Qed.

Lemma valid_others_set_rating (r : User.Rating) (this : User.t) :
  User.valid_others (User.set_rating r this) = User.valid_others this.
Proof. reflexivity. Qed.

Lemma valid_others_set_updatedAt (now : Date) (this : User.t) :
  User.valid_others (User.set_updatedAt now this) = User.valid_others this.
Proof. reflexivity. Qed.

(** One rating, on a valid document whose stored rating is in range. *)
Lemma updateRating_step (now : Date) (x : Q) (this : User.t) :
  User.valid this = true ->
  (0 <= User.count (User.rating (User.agentProfile this)))%Z ->
  (5 * (User.count (User.rating (User.agentProfile this)) + 1) <= 2 ^ 53)%Z ->
  0 <= User.average (User.rating (User.agentProfile this)) <= 5 ->
  1 <= x <= 5 ->
  let this' :=
    User.set_updatedAt now
      (User.set_rating (User.foldRating (User.rating (User.agentProfile this)) x) this) in
  User.updateRating now x this = Some this' /\ User.valid this' = true.
Proof.
  intros Hv Hc Hn Ha Hx. cbv zeta.
  destruct (foldRating_step _ x Hc Hn Ha Hx) as (Ec & Hav & _).
  unfold User.updateRating. rewrite Ec.
  assert ((User.count (User.rating (User.agentProfile this)) + 1 =? 0)%Z = false) as ->
    by (apply Z.eqb_neq; lia).
  assert (Hv' : User.valid
                  (User.set_rating
                     (User.foldRating (User.rating (User.agentProfile this)) x) this)
                = true).
  { unfold User.valid in *. apply andb_true_iff in Hv as [Ho _].
    rewrite valid_others_set_rating, Ho. apply valid_average_iff. exact Hav. }
  unfold User.save. rewrite Hv'. case_decide as E.
  - exfalso.
    apply (f_equal (fun u => User.count (User.rating (User.agentProfile u)))) in E.
    cbn [User.set_rating User.agentProfile User.rating] in E. rewrite Ec in E. lia.
  - split; [reflexivity | exact Hv'].
Qed.

Lemma submit_all_snoc (this : User.t) (l : list (Date * Q)) (now : Date) (x : Q) :
  submit_all this (l ++ [(now, x)]) = submit_all this l ≫= User.updateRating now x.
Proof. unfold submit_all. rewrite fold_left_app. reflexivity. Qed.

(** Every save succeeds, and the stored rating follows the ratings seen. *)
Lemma submit_all_tracks (this : User.t) (ratings : list (Date * Q)) :
  User.valid this = true ->
  User.rating (User.agentProfile this) = User.rating_default ->
  Forall (fun r => 1 <= r.2 <= 5) ratings ->
  (5 * Z.of_nat (length ratings) <= 2 ^ 53)%Z ->
  exists final,
    submit_all this ratings = Some final
    /\ User.valid final = true
    /\ tracks (User.rating (User.agentProfile final)) (ratings.*2).
Proof.
  intros Hv H0. induction ratings as [|[now x] l IH] using rev_ind; intros Hall Hlen.
  - exists this. rewrite H0. split; [reflexivity|]. split; [exact Hv | apply tracks_default].
  - apply Forall_app in Hall as [Hl Hx]. apply Forall_inv in Hx. simpl in Hx.
    rewrite length_app in Hlen. simpl in Hlen.
    destruct IH as (mid & Emid & Hvm & Hn & Hav & Herr); [exact Hl | lia |].
    rewrite length_fmap in Hn, Herr.
    destruct (updateRating_step now x mid Hvm) as [Efinal Hvf];
      [lia | lia | exact Hav | exact Hx |].
    destruct (foldRating_step (User.rating (User.agentProfile mid)) x)
      as (Ec & Hav' & Hstep); [lia | lia | exact Hav | exact Hx |].
    eexists. rewrite submit_all_snoc, Emid. split; [exact Efinal|].
    split; [exact Hvf|].
    cbn [User.set_updatedAt User.set_rating User.agentProfile User.rating].
    unfold tracks. cbv zeta. rewrite fmap_app, length_app, length_fmap. simpl length.
    split; [rewrite Ec, Hn; lia|]. split; [exact Hav'|].
    rewrite Ec. simpl fmap. rewrite sum_snoc.
    rewrite Hn in Hstep, Herr |- *.
    assert (EN : inject_Z (Z.of_nat (length l + 1)) == inject_Z (Z.of_nat (length l)) + 1).
    { rewrite Nat2Z.inj_add. apply inject_Z_succ. }
    assert (EN' : inject_Z (Z.of_nat (length l) + 1) == inject_Z (Z.of_nat (length l)) + 1)
      by apply inject_Z_succ.
    assert (Hk : 0 <= inject_Z (Z.of_nat (length l))) by (apply inject_Z_nonneg; lia).
    rewrite EN' in Hstep |- *. rewrite EN.
    set (k := inject_Z (Z.of_nat (length l))) in *.
    set (a' := User.average (User.foldRating (User.rating (User.agentProfile mid)) x)) in *.
    set (a := User.average (User.rating (User.agentProfile mid))) in *.
    set (S := sum l.*2) in *.
    apply Qabs_Qle_condition in Hstep, Herr. apply Qabs_Qle_condition.
    unfold unit_roundoff in *. split; nra.
Qed.

(** From the total to the mean. *)
Lemma tracks_mean (r : User.Rating) (seen : list Q) :
  tracks r seen -> User.average r == 0 \/ seen <> [] ->
  Qabs (User.average r - mean seen)
  <= 15 * inject_Z (Z.of_nat (length seen)) * unit_roundoff.
Proof.
  intros (Hn & _ & Herr) Hne. unfold mean. rewrite Hn in Herr.
  destruct seen as [|y seen].
  - destruct Hne as [E | Hne]; [|congruence]. rewrite E. discriminate.
  - assert (Hpos : 1 <= inject_Z (Z.of_nat (length (y :: seen))))
      by (unfold Qle; simpl length; simpl Qnum; simpl Qden; lia).
    set (n := inject_Z (Z.of_nat (length (y :: seen)))) in *.
    set (S := sum (y :: seen)) in *. set (a := User.average r) in *.
    assert (Em : (S / n) * n == S) by (field; lra).
    set (m := S / n) in *.
    apply Qabs_Qle_condition in Herr. apply Qabs_Qle_condition.
    unfold unit_roundoff in *. split; nra.
Qed.

(** The document holding the rating (1, k), as a save at time [now]
    leaves it. *)
Lemma updateRating_first_one (now : Date) (this : User.t) :
  User.valid this = true ->
  User.rating (User.agentProfile this) = User.rating_default ->
  User.updateRating now 1 this
  = Some (User.set_updatedAt now
            (User.set_rating {| User.average := 1; User.count := 1 |} this)).
Proof.
  intros Hv H0. apply andb_true_iff in Hv as [Ho _].
  unfold User.updateRating. rewrite H0.
  change (User.foldRating User.rating_default 1)
    with {| User.average := 1; User.count := 1 |}.
  cbn [User.count]. change (1 =? 0)%Z with false. cbv iota.
  unfold User.save, User.valid. rewrite valid_others_set_rating, Ho.
  cbn [andb User.set_rating User.agentProfile User.rating].
  change (User.valid_average {| User.average := 1; User.count := 1 |}) with true.
  cbv iota. case_decide as E; [|reflexivity].
  exfalso. apply (f_equal (fun u => User.rating (User.agentProfile u))) in E.
  cbn [User.set_rating User.agentProfile User.rating] in E. rewrite H0 in E.
  discriminate.
Qed.

Lemma foldRating_one (k : Z) :
  (0 <= k)%Z -> (k + 1 <= 2 ^ 53)%Z ->
  User.foldRating {| User.average := 1; User.count := k |} 1
  = {| User.average := 1; User.count := k + 1 |}.
Proof.
  intros H0 Hk. unfold User.foldRating, JS.div, JS.add, JS.mul.
  cbn [User.average User.count].
  rewrite (Number_of_exact (k + 1)) by lia. f_equal.
  rewrite (fl_comp (1 * inject_Z k) (inject_Z k)) by ring.
  rewrite (fl_Z k) by lia.
  rewrite (fl_comp (inject_Z k + 1) (inject_Z (k + 1)))
    by (rewrite inject_Z_succ; reflexivity).
  rewrite (fl_Z (k + 1)) by lia.
  rewrite (fl_comp (inject_Z (k + 1) / inject_Z (k + 1)) 1); [reflexivity|].
  field. intros E. apply (inject_Z_injective (k + 1) 0) in E. lia.
Qed.

Lemma updateRating_next_one (now : Date) (this : User.t) (k : Z) :
  User.valid_others this = true -> (0 <= k)%Z -> (k + 1 <= 2 ^ 53)%Z ->
  User.updateRating now 1
    (User.set_updatedAt now
       (User.set_rating {| User.average := 1; User.count := k |} this))
  = Some (User.set_updatedAt now
            (User.set_rating {| User.average := 1; User.count := k + 1 |} this)).
Proof.
  intros Ho H0 Hk. unfold User.updateRating.
  cbn [User.set_updatedAt User.set_rating User.agentProfile User.rating].
  rewrite (foldRating_one k H0 Hk). cbn [User.count].
  assert ((k + 1 =? 0)%Z = false) as -> by (apply Z.eqb_neq; lia).
  unfold User.save, User.valid. rewrite valid_others_set_rating.
  rewrite valid_others_set_updatedAt, valid_others_set_rating, Ho.
  cbn [andb User.set_rating User.agentProfile User.rating].
  change (User.valid_average {| User.average := 1; User.count := k + 1 |}) with true.
  cbv iota. case_decide as E; [|reflexivity].
  exfalso. apply (f_equal (fun u => User.count (User.rating (User.agentProfile u)))) in E.
  cbn [User.set_rating User.set_updatedAt User.agentProfile User.rating User.count] in E.
  lia.
Qed.

(** At a count of 2^53 a rating of 1 changes nothing: 2^53 + 1 is not a
    Number, and the one nearest it is 2^53. *)
Lemma updateRating_last_one (now : Date) (this : User.t) :
  User.valid_others this = true ->
  User.updateRating now 1
    (User.set_updatedAt now
       (User.set_rating
          {| User.average := 1; User.count := 9007199254740992 |} this))
  = Some (User.set_updatedAt now
            (User.set_rating
               {| User.average := 1; User.count := 9007199254740992 |} this)).
Proof.
  intros Ho. unfold User.updateRating.
  cbn [User.set_updatedAt User.set_rating User.agentProfile User.rating].
  assert (User.foldRating {| User.average := 1; User.count := 9007199254740992 |} 1
          = {| User.average := 1; User.count := 9007199254740992 |}) as ->
    by (vm_compute; reflexivity).
  cbn [User.count]. change (9007199254740992 =? 0)%Z with false. cbv iota.
  unfold User.save, User.valid. rewrite valid_others_set_rating.
  rewrite valid_others_set_updatedAt, valid_others_set_rating, Ho.
  cbn [andb User.set_rating User.agentProfile User.rating].
  change (User.valid_average {| User.average := 1; User.count := 9007199254740992 |})
    with true.
  cbv iota. case_decide; reflexivity.
Qed.

Lemma repeat_snoc {A} (x : A) (n : nat) : repeat x (S n) = (repeat x n ++ [x])%list.
Proof. apply repeat_cons. Qed.

Lemma submit_all_ones (now : Date) (this : User.t) (n : nat) :
  User.valid this = true ->
  User.rating (User.agentProfile this) = User.rating_default ->
  (Z.of_nat (S n) <= 2 ^ 53)%Z ->
  submit_all this (repeat (now, 1) (S n))
  = Some (User.set_updatedAt now
            (User.set_rating
               {| User.average := 1; User.count := Z.of_nat (S n) |} this)).
Proof.
  intros Hv H0. induction n as [|n IH]; intros Hn.
  - apply (updateRating_first_one now this Hv H0).
  - rewrite repeat_snoc, submit_all_snoc, IH by lia.
    apply andb_true_iff in Hv as [Ho _].
    replace (Z.of_nat (S (S n))) with (Z.of_nat (S n) + 1)%Z by lia.
    apply (updateRating_next_one now this (Z.of_nat (S n)) Ho); lia.
Qed.

(** Ratings of 1 beyond the 2^53rd are not counted. *)
Lemma submit_all_ones_saturates (now : Date) (this : User.t) (n : nat) :
  User.valid this = true ->
  User.rating (User.agentProfile this) = User.rating_default ->
  Z.of_nat (S n) = 9007199254740992%Z ->
  submit_all this (repeat (now, 1) (S (S n)))
  = Some (User.set_updatedAt now
            (User.set_rating
               {| User.average := 1; User.count := 9007199254740992 |} this)).
Proof.
  intros Hv H0 Hn.
  rewrite repeat_snoc, submit_all_snoc, (submit_all_ones now this n Hv H0), Hn
    by (rewrite Hn; discriminate).
  apply andb_true_iff in Hv as [Ho _].
  apply (updateRating_last_one now this Ho).
Qed.

(** Of 2^53 + 1 ratings, each of them 1, the stored count is 2^53. *)
Lemma updateRating_count_saturates :
  exists final,
    submit_all Sample.meera (repeat (0%Z, 1) (Z.to_nat 9007199254740993)) = Some final
    /\ Z.of_nat (length (repeat (0%Z, 1) (Z.to_nat 9007199254740993)))
       = 9007199254740993%Z
    /\ User.count (User.rating (User.agentProfile final)) = 9007199254740992%Z.
Proof.
  eexists. split; [|split].
  - replace (Z.to_nat 9007199254740993)
      with (S (S (Z.to_nat 9007199254740991))) by lia.
    apply (submit_all_ones_saturates 0 Sample.meera (Z.to_nat 9007199254740991));
      [reflexivity | reflexivity | lia].
  - rewrite repeat_length. lia.
  - reflexivity.
Qed.

(** C1, amended.  One rating between 1 and 5, on a stored pair (average,
    count) with the average between 0 and 5 and the count below 2^53 / 5,
    is saved, and leaves the count at count + 1 and the average at
    (average * count + newRating) / (count + 1) as Number arithmetic
    evaluates it, which is within 15 * 2^-53 of what the formula gives
    over the reals; nothing else of the document changes but [updatedAt].
    Hence submitting n ratings r1..rn, each between 1 and 5, in order to
    an agent whose rating is at the schema default (0, 0) succeeds at
    every step when 5 * n is at most 2^53, and leaves the stored count at
    n and the stored average within 15 * n * 2^-53 of the mean of
    r1..rn. *)
Theorem updateRating_running_mean (this : User.t) (ratings : list (Date * Q)) :
  User.valid this = true ->
  User.rating (User.agentProfile this) = User.rating_default ->
  Forall (fun r => 1 <= r.2 <= 5) ratings ->
  (5 * Z.of_nat (length ratings) <= 2 ^ 53)%Z ->
  (forall (agent : User.t) (now : Date) (newRating : Q),
      let old := User.rating (User.agentProfile agent) in
      User.valid agent = true ->
      (0 <= User.count old)%Z -> (5 * (User.count old + 1) <= 2 ^ 53)%Z ->
      0 <= User.average old <= 5 ->
      1 <= newRating <= 5 ->
      exists agent',
        User.updateRating now newRating agent = Some agent'
        /\ agent'
           = User.set_updatedAt now
               (User.set_rating (User.rating (User.agentProfile agent')) agent)
        /\ User.rating (User.agentProfile agent')
           = {| User.average :=
                  JS.div (JS.add (JS.mul (User.average old) (inject_Z (User.count old)))
                            newRating)
                    (inject_Z (User.count old + 1));
                User.count := (User.count old + 1)%Z |}
        /\ Qabs (User.average (User.rating (User.agentProfile agent'))
                 - (User.average old * inject_Z (User.count old) + newRating)
                   / inject_Z (User.count old + 1))
           <= 15 * unit_roundoff)
  /\ exists final,
       submit_all this ratings = Some final
       /\ User.count (User.rating (User.agentProfile final))
          = Z.of_nat (length ratings)
       /\ Qabs (User.average (User.rating (User.agentProfile final))
                - mean (ratings.*2))
          <= 15 * inject_Z (Z.of_nat (length ratings)) * unit_roundoff.
Proof.
  intros Hv H0 Hall Hlen. split.
  - intros agent now x old Hva Hc Hn Ha Hx.
    destruct (updateRating_step now x agent Hva Hc Hn Ha Hx) as [E _].
    destruct (foldRating_step old x Hc Hn Ha Hx) as (Ec & _ & Hstep).
    eexists. split; [exact E|].
    cbn [User.set_updatedAt User.set_rating User.agentProfile User.rating].
    split; [reflexivity|]. split.
    + unfold User.foldRating. fold old.
      rewrite (Number_of_exact (User.count old + 1)) by lia. reflexivity.
    + assert (HK : 0 < inject_Z (User.count old + 1)) by (unfold Qlt; simpl; lia).
      set (K := inject_Z (User.count old + 1)) in *.
      set (e := User.average old * inject_Z (User.count old) + x) in *.
      assert (Eq : (e / K) * K == e) by (field; lra).
      set (q := e / K) in *.
      set (a' := User.average (User.foldRating old x)) in *.
      change (User.average (User.foldRating (User.rating (User.agentProfile agent)) x))
        with a'.
      apply Qabs_Qle_condition in Hstep. apply Qabs_Qle_condition.
      unfold unit_roundoff in *. split; apply (Qmult_le_r _ _ K HK); nra.
  - destruct (submit_all_tracks this ratings Hv H0 Hall Hlen) as (final & E & _ & Htr).
    exists final. split; [exact E|]. split.
    + destruct Htr as [-> _]. rewrite length_fmap. reflexivity.
    + rewrite <- (length_fmap snd ratings). apply tracks_mean; [exact Htr|].
      destruct ratings as [|[now x] l]; [left|right; discriminate].
      injection E as <-. rewrite H0. reflexivity.
Qed.

Lemma updateRating_running_mean_witness :
  exists final,
    submit_all Sample.meera [(10%Z, 5); (20%Z, 4); (30%Z, 4)] = Some final
    /\ User.count (User.rating (User.agentProfile final)) = 3%Z
    /\ User.average (User.rating (User.agentProfile final))
       = 4878899596318037 # 1125899906842624
    /\ Qabs (User.average (User.rating (User.agentProfile final)) - (13 # 3))
       <= 45 * unit_roundoff.
Proof.
  destruct (updateRating_running_mean Sample.meera
              [(10%Z, 5); (20%Z, 4); (30%Z, 4)] eq_refl eq_refl)
    as (_ & final & E & Hn & Hm).
  - repeat constructor; simpl; unfold Qle; simpl; lia.
  - simpl. lia.
  - exists final. split; [exact E|]. split; [exact Hn|]. split.
    + vm_compute in E. injection E as <-. reflexivity.
    + exact Hm.
Defined.

End Rating.

(** ** The pager *)

Section Pager.

Import Http Mongo Validator.

Lemma decimal_digits_prefix (s : string) (acc : option Z) (z : Z) :
  decimal acc s = Some z -> JS.digits_prefix 10 acc s = Some z.
Proof.
  revert acc. induction s as [|c s IH]; intros acc; simpl.
  - trivial.
  - destruct (JS.digit_val 10 c); [apply IH | discriminate].
Qed.

Lemma digit_not_ws (c : ascii) (d : Z) :
  JS.digit_val 10 c = Some d -> JS.is_ws c = false.
Proof.
  unfold JS.digit_val, JS.is_ws.
  set (n := Z.of_N (N_of_ascii c)).
  destruct ((48 <=? n) && (n <=? 57)) eqn:E1.
  - intros _. apply andb_true_iff in E1 as [?%Z.leb_le ?%Z.leb_le].
    apply orb_false_iff. split.
    + apply andb_false_iff. right. apply Z.leb_gt. lia.
    + apply Z.eqb_neq. lia.
  - destruct ((97 <=? n) && (n <=? 122)) eqn:E2.
    + apply andb_true_iff in E2 as [?%Z.leb_le ?%Z.leb_le].
      destruct (n - 87 <? 10) eqn:E3; [|discriminate].
      apply Z.ltb_lt in E3. lia.
    + destruct ((65 <=? n) && (n <=? 90)) eqn:E4; [|discriminate].
      apply andb_true_iff in E4 as [?%Z.leb_le ?%Z.leb_le].
      destruct (n - 55 <? 10) eqn:E3; [|discriminate].
      apply Z.ltb_lt in E3. lia.
Qed.

Lemma decimal_no_prefix (c0 c1 : ascii) (r : string) (z : Z) :
  decimal None (String c0 (String c1 r)) = Some z ->
  Ascii.eqb c0 "0" && (Ascii.eqb c1 "x" || Ascii.eqb c1 "X") = false.
Proof.
  simpl. intros H.
  destruct (JS.digit_val 10 c0); [|discriminate].
  destruct (JS.digit_val 10 c1) eqn:E1; [|discriminate].
  apply andb_false_iff. right. apply orb_false_iff.
  split; apply Ascii.eqb_neq; intros ->; vm_compute in E1; discriminate.
Qed.

Lemma decimal_radix (s : string) (z : Z) :
  decimal None s = Some z -> JS.radix_of s = (10, s).
Proof.
  intros H. destruct s as [|c0 [|c1 r]]; try reflexivity.
  unfold JS.radix_of. rewrite (decimal_no_prefix _ _ _ _ H). reflexivity.
Qed.

Lemma decimal_unsigned (s : string) (z : Z) :
  decimal None s = Some z -> JS.sign_of (JS.trimStart s) = (1, s).
Proof.
  destruct s as [|c r]; [discriminate|]. intros H.
  assert (D : exists d, JS.digit_val 10 c = Some d).
  { simpl in H. destruct (JS.digit_val 10 c); [eauto | discriminate]. }
  destruct D as [d D]. simpl. rewrite (digit_not_ws _ _ D). simpl.
  assert (Ascii.eqb c "-" = false) as ->
    by (apply Ascii.eqb_neq; intros ->; vm_compute in D; discriminate).
  assert (Ascii.eqb c "+" = false) as ->
    by (apply Ascii.eqb_neq; intros ->; vm_compute in D; discriminate).
  reflexivity.
Qed.

Lemma parseInt_signed (sign : Z) (r : string) (n : Z) :
  decimal None r = Some n ->
  (let '(radix, s3) := JS.radix_of r in
   (fun n => JS.Number_of (sign * n)) <$> JS.digits_prefix radix None s3)
  = Some (JS.Number_of (sign * n)).
Proof.
  intros H. rewrite (decimal_radix _ _ H), (decimal_digits_prefix _ _ _ H).
  reflexivity.
Qed.

(** On the strings [isInt] accepts, [parseInt] reads the Number nearest
    the number the validator compared with the bounds. *)
Lemma parseInt_int_string (s : string) (z : Z) :
  int_string s = Some z -> JS.parseInt s = Some (JS.Number_of z).
Proof.
  destruct s as [|c r]; [discriminate|]. unfold int_string.
  destruct (Ascii.eqb c "-") eqn:Em; [|destruct (Ascii.eqb c "+") eqn:Ep].
  - apply Ascii.eqb_eq in Em as ->.
    destruct (decimal None r) as [n|] eqn:E; [|discriminate].
    intros [= <-]. unfold JS.parseInt.
    change (JS.sign_of (JS.trimStart (String "-" r))) with (-1, r). cbv beta iota.
    rewrite (parseInt_signed _ _ _ E). do 2 f_equal; lia.
  - apply Ascii.eqb_eq in Ep as ->. intros E.
    unfold JS.parseInt.
    change (JS.sign_of (JS.trimStart (String "+" r))) with (1, r). cbv beta iota.
    rewrite (parseInt_signed _ _ _ E). do 2 f_equal; lia.
  - intros E. unfold JS.parseInt. rewrite (decimal_unsigned _ _ E).
    cbv beta iota. rewrite (parseInt_signed _ _ _ E). do 2 f_equal; lia.
Qed.

Lemma isEmpty_passes (chains : list chain) (data : gmap string string) (c : chain) :
  isEmpty chains data = true -> In c chains -> passes data c = true.
Proof.
  unfold isEmpty. rewrite forallb_forall. auto.
Qed.

(** What a passing [isInt] chain says about [parseInt(x) || d], for a
    number that is a Number. *)
Lemma parseInt_or_requested (x : option string) (d lo : Z) (hi : option Z) (z : Z) :
  0 < lo -> in_bounds (Some lo) hi d = true ->
  match x with Some s => isInt (Some lo) hi s = true | None => True end ->
  requested x d = Some z -> z <= 2 ^ 53 ->
  JS.parseInt_or x d = z /\ in_bounds (Some lo) hi z = true.
Proof.
  intros Hlo Hd Hx Hr Hz. destruct x as [s|]; simpl in *.
  - unfold isInt in Hx. rewrite Hr in Hx. split; [|exact Hx].
    unfold JS.parseInt_or. simpl. rewrite (parseInt_int_string _ _ Hr).
    apply andb_true_iff in Hx as [Hx _]. simpl in Hx. apply Z.leb_le in Hx.
    rewrite (Number_of_exact z) by lia.
    destruct (z =? 0) eqn:E; [apply Z.eqb_eq in E; lia | reflexivity].
  - injection Hr as <-. split; [reflexivity | exact Hd].
Qed.

(** [Math.ceil(a / b)] is the least number of pages of [b] that hold [a]. *)
Lemma Math_ceil_div_least (a b : Z) :
  0 < b ->
  (JS.Math_ceil_div a b - 1) * b < a <= JS.Math_ceil_div a b * b.
Proof.
  intros Hb. unfold JS.Math_ceil_div.
  set (q := (inject_Z a / inject_Z b)%Q).
  assert (Hbq : (0 < inject_Z b)%Q) by (unfold Qlt; simpl; lia).
  assert (Hq : (q * inject_Z b == inject_Z a)%Q).
  { unfold q. field. intros E. rewrite E in Hbq. apply (Qlt_irrefl 0), Hbq. }
  split.
  - rewrite Zlt_Qlt, inject_Z_mult, <- Hq.
    apply Qmult_lt_compat_r; [exact Hbq | apply Qceiling_lt].
  - rewrite Zle_Qle, inject_Z_mult, <- Hq.
    apply Qmult_le_compat_r; [apply Qle_ceiling | apply Qlt_le_weak, Hbq].
Qed.

Lemma Qceiling_unique (x : Q) (c : Z) :
  (inject_Z (c - 1) < x)%Q -> (x <= inject_Z c)%Q -> Qceiling x = c.
Proof.
  intros Hlo Hhi.
  pose proof (Qle_ceiling x) as H1. pose proof (Qceiling_lt x) as H2.
  assert (inject_Z (Qceiling x - 1) < inject_Z c)%Q as H3 by lra.
  assert (inject_Z (c - 1) < inject_Z (Qceiling x))%Q as H4 by lra.
  rewrite <- Zlt_Qlt in H3, H4. lia.
Qed.

(** For fewer than 2^53 elements the quotient that [Math.ceil] is given
    rounds to a Number with the ceiling of the exact quotient. *)
Lemma Math_ceil_quotient (a b : Z) :
  0 <= a < 2 ^ 53 -> 0 < b ->
  JS.Math_ceil (JS.div (inject_Z a) (inject_Z b)) = JS.Math_ceil_div a b.
Proof.
  intros [Ha0 Ha] Hb. unfold JS.Math_ceil, JS.div.
  pose proof (Math_ceil_div_least a b Hb) as [Hlo Hhi].
  unfold JS.Math_ceil_div in *.
  set (q := (inject_Z a / inject_Z b)%Q) in *. set (c := Qceiling q) in *.
  assert (Hbq : (1 <= inject_Z b)%Q) by (unfold Qle; simpl; lia).
  assert (Haq : (0 <= inject_Z a)%Q) by (unfold Qle; simpl; lia).
  assert (Ha53 : (inject_Z a <= 9007199254740991)%Q) by (unfold Qle; simpl; lia).
  assert (Hq : (q * inject_Z b == inject_Z a)%Q) by (unfold q; field; lra).
  assert (Hq0 : (0 <= q)%Q) by (unfold q; apply Qle_shift_div_l; lra).
  assert (Hqc : (q <= inject_Z c)%Q) by apply Qle_ceiling.
  assert (Hc0 : 0 <= c).
  { rewrite Zle_Qle. change (inject_Z 0) with 0%Q. lra. }
  assert (Hca : c <= a) by nia.
  assert (Hlo' : (inject_Z (c - 1) * inject_Z b + 1 <= inject_Z a)%Q).
  { assert (H : (c - 1) * b + 1 <= a) by lia.
    rewrite Zle_Qle, inject_Z_plus, inject_Z_mult in H. exact H. }
  pose proof (fl_error q Hq0) as Herr. apply Qabs_Qle_condition in Herr.
  apply Qceiling_unique.
  - assert (H0b : (0 < inject_Z b)%Q) by lra.
    apply (Qmult_lt_r _ _ (inject_Z b) H0b).
    unfold unit_roundoff in Herr.
    set (f := JS.fl q) in *. set (B := inject_Z b) in *. set (A := inject_Z a) in *.
    set (C := inject_Z (c - 1)) in *. nra.
  - apply fl_le_Z; [lia | exact Hqc | exact Hq0].
Qed.

(** A listing whose page and size are in range: what is skipped, what is
    returned and what is reported. *)
Lemma listing_in_range {D} (find : Filter -> list D) (sort : Sort -> list D -> list D)
    (filter : Filter) (order : Sort) (query : Properties.Params) (page size : Z) :
  Properties.pager query = (page, size, (page - 1) * size) ->
  1 <= page -> 1 <= size -> Z.of_nat (length (find filter)) < 2 ^ 53 ->
  Properties.listing find sort filter order query
  = Json 200
      {| count := Z.of_nat (length (take (Z.to_nat size)
                    (drop (Z.to_nat ((page - 1) * size)) (sort order (find filter)))));
         total := Z.of_nat (length (find filter));
         page := page;
         pages := JS.Math_ceil_div (Z.of_nat (length (find filter))) size;
         docs := take (Z.to_nat size)
                   (drop (Z.to_nat ((page - 1) * size)) (sort order (find filter))) |}.
Proof.
  intros Hp Hpage Hsize Htotal. unfold Properties.listing. rewrite Hp.
  unfold run, skip, limit, countDocuments. simpl.
  assert (((page - 1) * size <? 0) = false) as -> by (apply Z.ltb_ge; nia).
  simpl. assert ((size =? 0) = false) as -> by (apply Z.eqb_neq; lia).
  rewrite Z.abs_eq, Math_ceil_quotient by lia. reflexivity.
Qed.

(** The three lines of the pager, for a page and a size whose product is
    a Number. *)
Lemma pager_in_range (query : Properties.Params) (page size : Z) :
  JS.parseInt_or (query !! "page") 1 = page ->
  JS.parseInt_or (query !! "limit") 10 = size ->
  1 <= page -> 1 <= size -> page * size <= 2 ^ 53 ->
  Properties.pager query = (page, size, (page - 1) * size).
Proof.
  intros Ep El Hp Hs Hb. unfold Properties.pager. rewrite Ep, El.
  rewrite (Number_of_exact (page - 1)) by nia.
  rewrite (Number_of_exact ((page - 1) * size)) by nia. reflexivity.
Qed.

(** The request that asks for page 2^53 + 1 of size 1 passes validation;
    the page read from it is 2^53, the Number nearest, and 2^53 - 1
    elements are skipped, not 2^53. *)
Lemma pager_rounds_page :
  isEmpty (Properties.list_chains Sample.env)
    {[ "page" := "9007199254740993"; "limit" := "1" ]} = true
  /\ requested (Some "9007199254740993") 1 = Some 9007199254740993
  /\ requested (Some "1") 10 = Some 1
  /\ Properties.pager {[ "page" := "9007199254740993"; "limit" := "1" ]}
     = (9007199254740992, 1, 9007199254740991)
  /\ (9007199254740993 - 1) * 1 = 9007199254740992.
Proof. repeat split; vm_compute; reflexivity. Qed.

(** C2, amended.  On [GET /api/properties], for every request that passes
    validation, with page number [page] (at least 1; 1 when not sent) and
    page size [size] (1 to 50; 10 when not sent) whose product is at most
    2^53, and fewer than 2^53 matches: the pager computes the offset
    (page - 1) * size; when the city, state and search texts sent compile
    as patterns, the handler skips that many elements of the ordered
    matches and returns at most [size] of what follows, and from the total
    number of matches reports ceil(total / size) pages, the least number
    of pages of that size that hold them all; when one of the texts does
    not compile it answers 500. *)
Theorem get_properties_pager (env : Env) (query : Properties.Params) (page size : Z) :
  let matches := findProperties env (Properties.list_filter env query) in
  let ordered := sortProperties env (Properties.list_sort query) matches in
  let total := Z.of_nat (length matches) in
  let offset := (page - 1) * size in
  let returned := take (Z.to_nat size) (drop (Z.to_nat offset) ordered) in
  let pages := JS.Math_ceil_div total size in
  isEmpty (Properties.list_chains env) query = true ->
  requested (query !! "page") 1 = Some page ->
  requested (query !! "limit") 10 = Some size ->
  page * size <= 2 ^ 53 ->
  total < 2 ^ 53 ->
  1 <= page /\ 1 <= size <= 50
  /\ Properties.pager query = (page, size, offset)
  /\ (forallb (compiles env) (Properties.patterns query) = true ->
      Properties.get_properties env query
      = Json 200 {| count := Z.of_nat (length returned); total := total;
                    page := page; pages := pages; docs := returned |})
  /\ (forallb (compiles env) (Properties.patterns query) = false ->
      Properties.get_properties env query = Refuse 500 "Something went wrong!")
  /\ Z.of_nat (length returned) <= size
  /\ (pages - 1) * size < total <= pages * size.
Proof.
  intros matches ordered total offset returned pages Hv Hpage Hsize Hb Ht.
  pose proof (isEmpty_passes _ _ (Chain "page" true (isInt (Some 1) None)) Hv) as Pp.
  pose proof (isEmpty_passes _ _ (Chain "limit" true (isInt (Some 1) (Some 50))) Hv) as Pl.
  unfold passes in Pp, Pl. simpl in Pp, Pl.
  assert (Bp0 : 1 <= page).
  { destruct (query !! "page") as [s|]; simpl in Hpage.
    - assert (Hs : isInt (Some 1) None s = true) by (apply Pp; auto).
      unfold isInt in Hs. rewrite Hpage in Hs.
      apply andb_true_iff in Hs as [Hs _]. simpl in Hs. apply Z.leb_le in Hs. exact Hs.
    - injection Hpage as <-. lia. }
  assert (Bl0 : 1 <= size <= 50).
  { destruct (query !! "limit") as [s|]; simpl in Hsize.
    - assert (Hs : isInt (Some 1) (Some 50) s = true) by (apply Pl; auto 10).
      unfold isInt in Hs. rewrite Hsize in Hs.
      apply andb_true_iff in Hs as [Hs1 Hs2]. simpl in Hs1, Hs2.
      apply Z.leb_le in Hs1, Hs2. lia.
    - injection Hsize as <-. lia. }
  destruct (parseInt_or_requested (query !! "page") 1 1 None page) as [Ep _];
    [lia | reflexivity | | exact Hpage | nia |].
  { destruct (query !! "page"); [apply Pp; auto | exact I]. }
  destruct (parseInt_or_requested (query !! "limit") 10 1 (Some 50) size) as [El _];
    [lia | reflexivity | | exact Hsize | lia |].
  { destruct (query !! "limit"); [apply Pl; auto 10 | exact I]. }
  pose proof (pager_in_range query page size Ep El Bp0 (proj1 Bl0) Hb) as Hpager.
  split; [exact Bp0|]. split; [exact Bl0|]. split; [exact Hpager|].
  split; [|split; [|split]].
  - intros Hc. unfold Properties.get_properties. rewrite Hv, Hc. simpl negb. cbv iota.
    apply listing_in_range; [exact Hpager | lia | lia | exact Ht].
  - intros Hc. unfold Properties.get_properties. rewrite Hv, Hc. reflexivity.
  - unfold returned. rewrite length_take. lia.
  - apply Math_ceil_div_least. lia.
Qed.

Lemma get_properties_pager_witness :
  Properties.pager {[ "page" := "3"; "limit" := "50" ]} = (3, 50, 100)
  /\ Properties.get_properties Sample.env {[ "page" := "3"; "limit" := "50" ]}
     = Json 200 {| count := 20; total := 120; page := 3; pages := 3;
                   docs := replicate 20 Sample.flat |}
  /\ Properties.get_properties Sample.env
       {[ "page" := "3"; "limit" := "50"; "city" := "*" ]}
     = Refuse 500 "Something went wrong!".
Proof.
  split; [|split].
  - destruct (get_properties_pager Sample.env {[ "page" := "3"; "limit" := "50" ]} 3 50)
      as (_ & _ & Hp & _); [vm_compute; reflexivity ..| lia | vm_compute; reflexivity |].
    exact Hp.
  - destruct (get_properties_pager Sample.env {[ "page" := "3"; "limit" := "50" ]} 3 50)
      as (_ & _ & _ & Hr & _); [vm_compute; reflexivity ..| lia | vm_compute; reflexivity |].
    rewrite Hr by (vm_compute; reflexivity). vm_compute. reflexivity.
  - destruct (get_properties_pager Sample.env
                {[ "page" := "3"; "limit" := "50"; "city" := "*" ]} 3 50)
      as (_ & _ & _ & _ & Hr & _);
      [vm_compute; reflexivity ..| lia | vm_compute; reflexivity |].
    apply Hr. vm_compute. reflexivity.
Defined.

End Pager.

(** ** Out-of-range pages and sizes *)

Section OutOfRange.

Import Http Mongo Validator.

Lemma failing_chain (chains : list chain) (data : gmap string string) (c : chain) :
  In c chains -> passes data c = false -> isEmpty chains data = false.
Proof.
  intros Hin Hc. destruct (isEmpty chains data) eqn:E; [|reflexivity].
  rewrite (isEmpty_passes _ _ _ E Hin) in Hc. discriminate.
Qed.

(** The public listing refuses a page below 1 and a size outside 1..50. *)
Lemma get_properties_out_of_range (env : Env) (query : Properties.Params) (s : string) :
  (query !! "page" = Some s /\ isInt (Some 1) None s = false)
  \/ (query !! "limit" = Some s /\ isInt (Some 1) (Some 50) s = false) ->
  Properties.get_properties env query = Refuse 400 "Validation errors".
Proof.
  intros H. unfold Properties.get_properties.
  assert (isEmpty (Properties.list_chains env) query = false) as ->; [|reflexivity].
  destruct H as [[Hq Hs] | [Hq Hs]].
  - apply (failing_chain _ _ (Chain "page" true (isInt (Some 1) None)));
      [simpl; auto | unfold passes; simpl; rewrite Hq; exact Hs].
  - apply (failing_chain _ _ (Chain "limit" true (isInt (Some 1) (Some 50))));
      [simpl; auto | unfold passes; simpl; rewrite Hq; exact Hs].
Qed.

(** So does the agent listing. *)
Lemma get_agents_out_of_range (env : Env) (query : Agents.Params) (s : string) :
  (query !! "page" = Some s /\ isInt (Some 1) None s = false)
  \/ (query !! "limit" = Some s /\ isInt (Some 1) (Some 50) s = false) ->
  Agents.get_agents env query = Refuse 400 "Validation errors".
Proof.
  intros H. unfold Agents.get_agents.
  assert (isEmpty (Agents.list_chains env) query = false) as ->; [|reflexivity].
  destruct H as [[Hq Hs] | [Hq Hs]].
  - apply (failing_chain _ _ (Chain "page" true (isInt (Some 1) None)));
      [simpl; auto | unfold passes; simpl; rewrite Hq; exact Hs].
  - apply (failing_chain _ _ (Chain "limit" true (isInt (Some 1) (Some 50))));
      [simpl; auto | unfold passes; simpl; rewrite Hq; exact Hs].
Qed.

(** C3. The claim is that every paginated endpoint answers 400 to a page
    below 1 or a size outside 1..50.  [GET /api/properties/agent/my-properties]
    has no validation chain: asked for 100 elements per page it answers
    200 with 100 elements, and asked for page 0 of size 0 it answers 200
    with page 1 of size 10, where the public listing answers 400 to
    both. *)
Theorem get_my_properties_out_of_range :
  Properties.get_my_properties Sample.env Sample.db (Auth.Verified "a1")
    {[ "limit" := "100" ]}
  = Json 200 {| count := 100; total := 120; page := 1; pages := 2;
                docs := replicate 100 Sample.flat |}
  /\ Properties.get_my_properties Sample.env Sample.db (Auth.Verified "a1")
       {[ "page" := "0"; "limit" := "0" ]}
     = Json 200 {| count := 10; total := 120; page := 1; pages := 12;
                   docs := replicate 10 Sample.flat |}
  /\ Properties.get_properties Sample.env {[ "limit" := "100" ]}
     = Refuse 400 "Validation errors"
  /\ Properties.get_properties Sample.env {[ "page" := "0"; "limit" := "0" ]}
     = Refuse 400 "Validation errors".
Proof.
  repeat split; vm_compute; reflexivity.
Qed.

End OutOfRange.

(** ** The filter builder *)

Section FilterBuilder.

Import Http Mongo.

Lemma assign_if_lookup (x : option string) (k : string) (f : string -> Cond)
    (filter : Filter) (key : string) :
  is_Some (Properties.assign_if x k f filter !! key) ->
  (key = k /\ is_Some x) \/ is_Some (filter !! key).
Proof.
  unfold Properties.assign_if, JS.truthy.
  destruct x as [[|c s]|]; auto.
  destruct (decide (k = key)) as [->|Hne].
  - left. split; [reflexivity | eauto].
  - rewrite lookup_insert_ne by exact Hne. auto.
Qed.

Lemma assign_if_other (x : option string) (k : string) (f : string -> Cond)
    (filter : Filter) (key : string) :
  key <> k -> Properties.assign_if x k f filter !! key = filter !! key.
Proof.
  intros Hne. unfold Properties.assign_if.
  destruct (JS.truthy x); [|reflexivity].
  apply lookup_insert_ne. congruence.
Qed.

Lemma truthy_is_Some (x : option string) : is_Some (JS.truthy x) -> is_Some x.
Proof. destruct x as [[|c s]|]; simpl; eauto. Qed.

(** Every key of the public listing's filter is [status] or is accounted
    for by a parameter the request carries. *)
Lemma list_filter_keys_present (env : Env) (query : Properties.Params) (key : string) :
  is_Some (Properties.list_filter env query !! key) ->
  key = "status"
  \/ exists param, In (param, key) list_filter_keys /\ is_Some (query !! param).
Proof.
  unfold Properties.list_filter. intros H.
  apply assign_if_lookup in H as [[-> H] | H];
    [right; exists "search"; split; [simpl; auto 10 | exact H] |].
  assert (Hprice :
    (key = "price.amount"
     /\ (is_Some (query !! "minPrice") \/ is_Some (query !! "maxPrice")))
    \/ is_Some
         (Properties.assign_if (query !! "bathrooms") "specifications.bathrooms"
            (fun v => Range (Some (of_int (JS.parseInt v))) None)
            (Properties.assign_if (query !! "bedrooms") "specifications.bedrooms"
               (fun v => Range (Some (of_int (JS.parseInt v))) None)
               (Properties.assign_if (query !! "state") "address.state" RegExp_i
                  (Properties.assign_if (query !! "city") "address.city" RegExp_i
                     (Properties.assign_if (query !! "listingType") "listingType" Is
                        (Properties.assign_if (query !! "type") "type" Is
                           {[ "status" := Is "active" ]}))))) !! key)).
  { destruct (JS.truthy (query !! "minPrice")) eqn:Emin;
      destruct (JS.truthy (query !! "maxPrice")) eqn:Emax;
      try (destruct (decide ("price.amount" = key)) as [<-|Hne];
           [left; split; [reflexivity|];
            first [ left; apply truthy_is_Some; rewrite Emin; solve [eauto]
                  | right; apply truthy_is_Some; rewrite Emax; solve [eauto] ]
           | rewrite lookup_insert_ne in H by exact Hne; right; exact H ]).
    right. exact H. }
  clear H. destruct Hprice as [[-> [H | H]] | H].
  { right. exists "minPrice". split; [simpl; auto 10 | exact H]. }
  { right. exists "maxPrice". split; [simpl; auto 10 | exact H]. }
  apply assign_if_lookup in H as [[-> H] | H];
    [right; exists "bathrooms"; split; [simpl; auto 10 | exact H] |].
  apply assign_if_lookup in H as [[-> H] | H];
    [right; exists "bedrooms"; split; [simpl; auto 10 | exact H] |].
  apply assign_if_lookup in H as [[-> H] | H];
    [right; exists "state"; split; [simpl; auto 10 | exact H] |].
  apply assign_if_lookup in H as [[-> H] | H];
    [right; exists "city"; split; [simpl; auto 10 | exact H] |].
  apply assign_if_lookup in H as [[-> H] | H];
    [right; exists "listingType"; split; [simpl; auto 10 | exact H] |].
  apply assign_if_lookup in H as [[-> H] | H];
    [right; exists "type"; split; [simpl; auto 10 | exact H] |].
  left. destruct (decide ("status" = key)) as [<-|Hne]; [reflexivity|].
  rewrite lookup_singleton_ne in H by exact Hne. destruct H as [? [=]].
Qed.

(** The price entry has a bound only for the bound the request carries. *)
Lemma list_filter_price (env : Env) (query : Properties.Params) (gte lte : option number) :
  Properties.list_filter env query !! "price.amount" = Some (Range gte lte) ->
  (query !! "minPrice" = None -> gte = None)
  /\ (query !! "maxPrice" = None -> lte = None).
Proof.
  unfold Properties.list_filter.
  rewrite assign_if_other by discriminate.
  destruct (JS.truthy (query !! "minPrice")) as [lo|] eqn:Emin;
    destruct (JS.truthy (query !! "maxPrice")) as [hi|] eqn:Emax;
    try (rewrite lookup_insert_eq; intros [= <- <-]; split; intros E;
         first [ reflexivity
               | rewrite E in Emin; discriminate
               | rewrite E in Emax; discriminate ]).
  rewrite !assign_if_other by discriminate.
  rewrite lookup_singleton_ne by discriminate. discriminate.
Qed.

(** No parameter touches the [status] entry of the public listing. *)
Lemma list_filter_status (env : Env) (query : Properties.Params) :
  Properties.list_filter env query !! "status" = Some (Is "active").
Proof.
  unfold Properties.list_filter.
  rewrite assign_if_other by discriminate.
  destruct (JS.truthy (query !! "minPrice")), (JS.truthy (query !! "maxPrice"));
    try rewrite lookup_insert_ne by discriminate;
    rewrite !assign_if_other by discriminate; apply lookup_singleton_eq.
Qed.

Lemma my_filter_keys_present (user : User.t) (query : Properties.Params) (key : string) :
  is_Some (Properties.my_filter user query !! key) ->
  key = "agent" \/ (key = "status" /\ is_Some (query !! "status")).
Proof.
  unfold Properties.my_filter. intros H.
  apply assign_if_lookup in H as [H | H]; [right; exact H | left].
  destruct (decide ("agent" = key)) as [<-|Hne]; [reflexivity|].
  rewrite lookup_singleton_ne in H by exact Hne. destruct H as [? [=]].
Qed.

(** C4. The filter of the public listing has a key only for [status] and
    for parameters the request carries, and a price bound only for the
    bound it carries; its [status] entry is always 'active', so a request
    without parameters gets exactly [{status: 'active'}].  The filter of
    the my-properties listing has the caller's id under [agent], and a
    [status] entry exactly when a status is sent: without parameters it is
    exactly [{agent: id}]. *)
Theorem filter_builder_keys (env : Env) (user : User.t) :
  (forall (query : Properties.Params) (key : string),
      is_Some (Properties.list_filter env query !! key) ->
      key = "status"
      \/ exists param, In (param, key) list_filter_keys /\ is_Some (query !! param))
  /\ (forall (query : Properties.Params) (gte lte : option number),
         Properties.list_filter env query !! "price.amount" = Some (Range gte lte) ->
         (query !! "minPrice" = None -> gte = None)
         /\ (query !! "maxPrice" = None -> lte = None))
  /\ (forall query : Properties.Params,
         Properties.list_filter env query !! "status" = Some (Is "active"))
  /\ Properties.list_filter env ∅ = {[ "status" := Is "active" ]}
  /\ (forall (query : Properties.Params) (key : string),
         is_Some (Properties.my_filter user query !! key) ->
         key = "agent" \/ (key = "status" /\ is_Some (query !! "status")))
  /\ (forall query : Properties.Params,
         query !! "status" = None ->
         Properties.my_filter user query = {[ "agent" := Is (User.id user) ]})
  /\ (forall (query : Properties.Params) (s : string),
         query !! "status" = Some s -> s <> "" ->
         Properties.my_filter user query
         = <["status" := Is s]> {[ "agent" := Is (User.id user) ]})
  /\ Properties.my_filter user ∅ = {[ "agent" := Is (User.id user) ]}.
Proof.
  split; [apply list_filter_keys_present|].
  split; [apply list_filter_price|].
  split; [apply list_filter_status|].
  split; [reflexivity|].
  split; [apply my_filter_keys_present|].
  split; [intros query E; unfold Properties.my_filter; rewrite E; reflexivity|].
  split; [|reflexivity].
  intros query s E Hs. unfold Properties.my_filter. rewrite E.
  destruct s; [congruence | reflexivity].
Qed.

End FilterBuilder.

(** ** The sort resolver *)

Section SortResolver.

Import Mongo.

(** C5. Without a sort key the property listing is ordered featured
    first, then newest first, and the agent listing by rating average
    descending, then by transaction count descending.  With a sort key,
    [price] and [area] (properties) and [rating], [experience] and
    [transactions] (agents) order by the nested path they stand for, in
    the requested direction: ascending for 'asc', descending otherwise. *)
Theorem sort_resolver (query : Properties.Params) :
  (query !! "sortBy" = None ->
     Properties.list_sort query = [("featured", -1); ("createdAt", -1)]
     /\ Agents.list_sort query
        = [("agentProfile.rating.average", -1);
           ("agentProfile.totalTransactions", -1)])
  /\ (forall key path,
         In (key, path) property_sort_paths -> query !! "sortBy" = Some key ->
         Properties.list_sort query = [(path, Properties.sortOrder query)])
  /\ (forall key path,
         In (key, path) agent_sort_paths -> query !! "sortBy" = Some key ->
         Agents.list_sort query = [(path, Properties.sortOrder query)])
  /\ (query !! "sortOrder" = Some "asc" -> Properties.sortOrder query = 1)
  /\ (query !! "sortOrder" <> Some "asc" -> Properties.sortOrder query = -1).
Proof.
  split; [|split; [|split; [|split]]].
  - intros E. unfold Properties.list_sort, Agents.list_sort. rewrite E. auto.
  - intros key path Hin E. unfold Properties.list_sort. rewrite E.
    simpl in Hin. destruct Hin as [[= <- <-] | [[= <- <-] | []]]; reflexivity.
  - intros key path Hin E. unfold Agents.list_sort. rewrite E.
    simpl in Hin.
    destruct Hin as [[= <- <-] | [[= <- <-] | [[= <- <-] | []]]]; reflexivity.
  - intros E. unfold Properties.sortOrder. rewrite E. reflexivity.
  - intros E. unfold Properties.sortOrder.
    destruct (query !! "sortOrder") as [o|]; [|reflexivity].
    destruct (String.eqb o "asc") eqn:Eo; [|reflexivity].
    apply String.eqb_eq in Eo. congruence.
Qed.

End SortResolver.

(** ** Status updates *)

Section Status.

Import Http Mongo Validator.

Lemma protect_verified {A} (users : gmap string User.t) (uid : string) (user : User.t) :
  users !! uid = Some user -> User.isActive user = true ->
  Auth.protect (A := A) users (Auth.Verified uid) = inl user.
Proof. intros Hu Ha. unfold Auth.protect. rewrite Hu, Ha. reflexivity. Qed.

Lemma protect_refusal {A} (users : gmap string User.t) (token : Auth.Token)
    (refusal : Response A) :
  Auth.protect users token = inr refusal -> Http.code refusal = 401.
Proof.
  unfold Auth.protect. destruct token as [| |uid]; try (intros [= <-]; reflexivity).
  destruct (users !! uid) as [user|]; [|intros [= <-]; reflexivity].
  destruct (User.isActive user); [discriminate | intros [= <-]; reflexivity].
Qed.







End Status.

(** ** Rating an agent *)

Section SelfRating.

Import Http Mongo Validator.

(** A rate request whose target is spelled as the requester's own id is,
    the requester being an agent, is answered 400 and writes nothing. *)
Lemma rate_agent_same_spelling (env : Env) (now : Date) (db : Db) (id : string)
    (user : User.t) (body : Agents.Params) :
  users db !! id = Some user -> User.id user = id -> ObjectId.cast id = Some id ->
  User.isActive user = true -> User.isAgent user = true ->
  exists message,
    Agents.rate_agent env now db (Auth.Verified id) id body = (Refuse 400 message, db).
Proof.
  intros Hu Hid Hcast Ha Hg. unfold Agents.rate_agent.
  rewrite (protect_verified _ _ _ Hu Ha).
  destruct (isEmpty _ body); simpl.
  - rewrite Hcast, Hu, Hg, Ha. simpl.
    assert (String.eqb (User.id user) id = true) as -> by (apply String.eqb_eq, Hid).
    eauto.
  - eauto.
Qed.

(** C8. The claim is that a rate request whose target is the requester's
    own agent profile is answered 400 and leaves the rating as it was.
    The handler finds the target by a query, which reads the id in the
    URL in either letter case, and then compares the text of the URL with
    the requester's id: the agent 64b7f3a2c9e1d40012ab34cd, whose rating
    is (0, 0), posts a rating of 3 to /api/agents/64B7F3A2C9E1D40012AB34CD/rate,
    is answered 200, and its stored rating is (3, 1).  With the id written
    as its own id is, the same request is answered 400 'You cannot rate
    yourself' and nothing is written. *)
Theorem rate_agent_own_id_in_upper_case :
  ObjectId.cast "64B7F3A2C9E1D40012AB34CD" = Some (User.id Sample.meera)
  /\ users Sample.registry !! User.id Sample.meera = Some Sample.meera
  /\ User.rating (User.agentProfile Sample.meera)
     = {| User.average := 0; User.count := 0 |}
  /\ (exists rated,
        (Agents.rate_agent Sample.env 9 Sample.registry
           (Auth.Verified "64b7f3a2c9e1d40012ab34cd") "64B7F3A2C9E1D40012AB34CD"
           {[ "rating" := "3" ]}).1 = Json 200 tt
        /\ users (Agents.rate_agent Sample.env 9 Sample.registry
                    (Auth.Verified "64b7f3a2c9e1d40012ab34cd")
                    "64B7F3A2C9E1D40012AB34CD" {[ "rating" := "3" ]}).2
             !! User.id Sample.meera = Some rated
        /\ User.id rated = User.id Sample.meera
        /\ User.rating (User.agentProfile rated)
           = {| User.average := 3; User.count := 1 |})
  /\ Agents.rate_agent Sample.env 9 Sample.registry
       (Auth.Verified "64b7f3a2c9e1d40012ab34cd") "64b7f3a2c9e1d40012ab34cd"
       {[ "rating" := "3" ]}
     = (Refuse 400 "You cannot rate yourself", Sample.registry).
Proof.
  split; [vm_compute; reflexivity|]. split; [vm_compute; reflexivity|].
  split; [reflexivity|]. split; [|vm_compute; reflexivity].
  eexists. split; [vm_compute; reflexivity|]. split; [vm_compute; reflexivity|].
  split; reflexivity.
Qed.

End SelfRating.

(** ** The image list *)

Section Images.

Import Http Mongo Upload.

Implicit Types (l : list Property.Image) (img : Property.Image).

Lemma primaries_cons img l :
  primaries (img :: l) = ((if Property.isPrimary img then 1 else 0) + primaries l)%nat.
Proof. unfold primaries. simpl. destruct (Property.isPrimary img); reflexivity. Qed.

Lemma primaries_app l l' : primaries (l ++ l') = (primaries l + primaries l')%nat.
Proof.
  induction l as [|img l IH]; [reflexivity|].
  rewrite <- app_comm_cons, !primaries_cons, IH. lia.
Qed.

Lemma primaries_cleared l : primaries (set_isPrimary false <$> l) = 0%nat.
Proof.
  induction l as [|img l IH]; [reflexivity|].
  rewrite fmap_cons, primaries_cons, IH. reflexivity.
Qed.

Lemma primaries_caption (c : option string) (i : nat) l :
  primaries (alter (set_caption c) i l) = primaries l.
Proof.
  revert i. induction l as [|img l IH]; intros [|i].
  - reflexivity.
  - reflexivity.
  - change (alter (set_caption c) 0%nat (img :: l)) with (set_caption c img :: l).
    rewrite !primaries_cons. reflexivity.
  - change (alter (set_caption c) (S i) (img :: l))
      with (img :: alter (set_caption c) i l).
    rewrite !primaries_cons, IH. reflexivity.
Qed.

Lemma primaries_promote (i : nat) l :
  (primaries (alter (set_isPrimary true) i l) <= S (primaries l))%nat.
Proof.
  revert i. induction l as [|img l IH]; intros [|i].
  - simpl. lia.
  - simpl. lia.
  - change (alter (set_isPrimary true) 0%nat (img :: l))
      with (set_isPrimary true img :: l).
    rewrite !primaries_cons. simpl. destruct (Property.isPrimary img); lia.
  - change (alter (set_isPrimary true) (S i) (img :: l))
      with (img :: alter (set_isPrimary true) i l).
    rewrite !primaries_cons. specialize (IH i). lia.
Qed.

Lemma primaries_delete (i : nat) l img :
  l !! i = Some img ->
  primaries l
  = ((if Property.isPrimary img then 1 else 0) + primaries (delete i l))%nat.
Proof.
  revert i. induction l as [|x l IH]; intros [|i] H; try discriminate.
  - injection H as ->. apply primaries_cons.
  - change (delete (S i) (x :: l)) with (x :: delete i l).
    rewrite !primaries_cons, (IH i H). lia.
Qed.

(** Images built by a callback that never flags primary. *)
Lemma primaries_uploaded_none (g : nat -> File -> option Property.Image)
    (files : list File) l :
  (forall i f img, g i f = Some img -> Property.isPrimary img = false) ->
  mapM id (imap g files) = Some l -> primaries l = 0%nat.
Proof.
  revert g l. induction files as [|f files IH]; intros g l Hg.
  - intros [= <-]. reflexivity.
  - rewrite imap_cons. intros H. apply mapM_Some in H.
    apply Forall2_cons_inv_l in H as (img & rest & E0 & Er & ->).
    apply mapM_Some in Er. rewrite primaries_cons, (Hg _ _ _ E0).
    apply (IH (g ∘ S)); [|exact Er].
    intros i f' img' H. apply (Hg (S i) f' img' H).
Qed.

Lemma uploaded_image_isPrimary (existing : list Property.Image)
    (captions : option (list string)) (index : nat) (file : File) img :
  uploaded_image existing captions index file = Some img ->
  Property.isPrimary img = ((index =? 0)%nat && (length existing =? 0)%nat).
Proof.
  unfold uploaded_image. destruct (stored file) as [[pid u]|]; [|discriminate].
  simpl. intros [= <-]. reflexivity.
Qed.

Lemma uploaded_image_later (existing : list Property.Image)
    (captions : option (list string)) (i : nat) (file : File) img :
  (uploaded_image existing captions ∘ S) i file = Some img ->
  Property.isPrimary img = false.
Proof.
  intros H. rewrite (uploaded_image_isPrimary _ _ _ _ _ H). reflexivity.
Qed.

(** An upload keeps at most one primary image. *)
Lemma primaries_upload (existing : list Property.Image)
    (captions : option (list string)) (files : list File) l :
  (primaries existing <= 1)%nat ->
  mapM id (imap (uploaded_image existing captions) files) = Some l ->
  (primaries (existing ++ l) <= 1)%nat.
Proof.
  intros Hex Hup. rewrite primaries_app.
  destruct files as [|f files].
  - injection Hup as <-. simpl. unfold primaries at 2. simpl. lia.
  - rewrite imap_cons in Hup. apply mapM_Some in Hup.
    apply Forall2_cons_inv_l in Hup as (img & rest & E0 & Er & ->).
    apply mapM_Some in Er.
    rewrite primaries_cons, (uploaded_image_isPrimary _ _ _ _ _ E0).
    rewrite (primaries_uploaded_none _ _ _ (uploaded_image_later _ _) Er).
    destruct existing as [|x existing]; simpl; [|lia].
    unfold primaries. simpl. lia.
Qed.

Lemma primaries_update (i : nat) (caption : option string) (isPrimary : bool) l :
  (primaries l <= 1)%nat -> (primaries (update_image i caption isPrimary l) <= 1)%nat.
Proof.
  intros H. unfold update_image. destruct isPrimary.
  - etransitivity; [apply primaries_promote|]. rewrite primaries_cleared. lia.
  - destruct caption; [rewrite primaries_caption|]; exact H.
Qed.

Lemma primaries_remove (i : nat) l img :
  l !! i = Some img -> (primaries l <= 1)%nat ->
  (primaries (remove_image i img l) <= 1)%nat
  /\ (Property.isPrimary img = true -> (0 < length (delete i l))%nat ->
      primaries (remove_image i img l) = 1%nat
      /\ exists first, remove_image i img l !! 0%nat = Some first
                       /\ Property.isPrimary first = true).
Proof.
  intros Hi H1. pose proof (primaries_delete i l img Hi) as Hd.
  unfold remove_image. destruct (Property.isPrimary img) eqn:Eimg; simpl.
  - assert (Hz : primaries (delete i l) = 0%nat) by lia.
    destruct (delete i l) as [|x rest] eqn:Edel; simpl.
    + split; [unfold primaries; simpl; lia | intros _ Hlen; simpl in Hlen; lia].
    + rewrite primaries_cons in *. simpl Property.isPrimary.
      split; [lia|]. intros _ _. split; [lia|].
      exists (set_isPrimary true x). split; reflexivity.
  - split; [lia | discriminate].
Qed.

Lemma save_images (now : Date) (property : Property.t) l :
  Property.images (Property.save now property (Property.set_images l property)) = l.
Proof. unfold Property.save. case_decide; reflexivity. Qed.

Lemma put_property_single_primary (db : Db) (id : string) (p : Property.t) :
  all_single_primary db -> single_primary p ->
  all_single_primary (put_property id p db).
Proof.
  intros Hdb Hp k q. unfold put_property. simpl.
  destruct (decide (id = k)) as [->|Hne].
  - rewrite lookup_insert_eq. intros [= <-]. exact Hp.
  - rewrite lookup_insert_ne by exact Hne. apply Hdb.
Qed.

Lemma length_remove_image (i : nat) img l :
  length (remove_image i img l) = length (delete i l).
Proof.
  unfold remove_image. destruct (_ && _); [apply length_alter | reflexivity].
Qed.

Lemma post_property_images_single_primary (now : Date) (db : Db) (token : Auth.Token)
    (propertyId : string) (files : list File) (captions : option (list string)) :
  all_single_primary db ->
  all_single_primary (post_property_images now db token propertyId files captions).2.
Proof.
  intros Hdb. unfold post_property_images.
  destruct (Auth.protect _ _) as [user|]; [|exact Hdb].
  destruct (Auth.requireAgent user); [exact Hdb|].
  destruct (properties db !! propertyId) as [property|] eqn:Ep; [|exact Hdb].
  destruct (Auth.not_owner_nor_admin property user); [exact Hdb|].
  destruct (length files =? 0)%nat; [exact Hdb|].
  destruct (mapM _ _) as [uploadedImages|] eqn:Eup; [|exact Hdb].
  apply put_property_single_primary; [exact Hdb|].
  unfold single_primary. rewrite save_images.
  eapply primaries_upload; [apply (Hdb _ _ Ep) | exact Eup].
Qed.

Lemma put_property_image_single_primary (now : Date) (db : Db) (token : Auth.Token)
    (propertyId imageId : string) (caption : option string) (isPrimary : bool) :
  all_single_primary db ->
  all_single_primary
    (put_property_image now db token propertyId imageId caption isPrimary).2.
Proof.
  intros Hdb. unfold put_property_image.
  destruct (Auth.protect _ _) as [user|]; [|exact Hdb].
  destruct (properties db !! propertyId) as [property|] eqn:Ep; [|exact Hdb].
  destruct (Auth.not_owner_nor_admin property user); [exact Hdb|].
  destruct (findIndex imageId _) as [imageIndex|]; [|exact Hdb].
  apply put_property_single_primary; [exact Hdb|].
  unfold single_primary. rewrite save_images.
  apply primaries_update, (Hdb _ _ Ep).
Qed.

Lemma delete_property_image_single_primary (now : Date) (db : Db) (token : Auth.Token)
    (propertyId imageId : string) (destroyed : bool) :
  all_single_primary db ->
  all_single_primary
    (delete_property_image now db token propertyId imageId destroyed).1.2.
Proof.
  intros Hdb. unfold delete_property_image.
  destruct (Auth.protect _ _) as [user|]; [|exact Hdb].
  destruct (properties db !! propertyId) as [property|] eqn:Ep; [|exact Hdb].
  destruct (Auth.not_owner_nor_admin property user); [exact Hdb|].
  destruct (list_find _ _) as [[imageIndex imageToDelete]|] eqn:Ef; [|exact Hdb].
  apply put_property_single_primary; [exact Hdb|].
  unfold single_primary. rewrite save_images.
  apply list_find_Some in Ef as (Hi & _ & _).
  apply (primaries_remove _ _ _ Hi), (Hdb _ _ Ep).
Qed.

Lemma delete_property_image_promotes (now : Date) (db db' : Db) (token : Auth.Token)
    (propertyId imageId : string) (destroyed : bool) (property : Property.t)
    (i : nat) img (n : Z) (events : list Event) :
  all_single_primary db ->
  properties db !! propertyId = Some property ->
  list_find (fun x => Property.image_id x = imageId) (Property.images property)
  = Some (i, img) ->
  Property.isPrimary img = true ->
  delete_property_image now db token propertyId imageId destroyed
  = (Json 200 n, db', events) ->
  0 < n ->
  exists property' first,
    properties db' !! propertyId = Some property'
    /\ n = Z.of_nat (length (Property.images property'))
    /\ primaries (Property.images property') = 1%nat
    /\ Property.images property' !! 0%nat = Some first
    /\ Property.isPrimary first = true.
Proof.
  intros Hdb Ep Ef Himg. unfold delete_property_image.
  destruct (Auth.protect _ _) as [user|refusal] eqn:Epr;
    [|intros [= -> _ _]; apply protect_refusal in Epr; discriminate].
  rewrite Ep. destruct (Auth.not_owner_nor_admin property user); [discriminate|].
  rewrite Ef. intros [= <- <- <-] Hn.
  apply list_find_Some in Ef as (Hi & _ & _).
  destruct (primaries_remove _ _ _ Hi (Hdb _ _ Ep)) as [_ Hpromote].
  rewrite length_remove_image in Hn.
  destruct Hpromote as (H1 & first & H0 & Hfirst); [exact Himg | lia |].
  eexists _, first. simpl. rewrite lookup_insert_eq, save_images.
  split; [reflexivity|]. split; [reflexivity|]. auto.
Qed.

(** C7. Uploading images, updating an image (its caption, or making it
    the primary one) and deleting an image each leave every property of
    the collection with at most one image flagged primary, given that this
    held before; and when the deleted image was the primary one and images
    remain, the stored list has exactly one primary image afterwards, its
    first. *)
Theorem image_operations_single_primary (now : Date) (db : Db) (token : Auth.Token)
    (propertyId imageId : string) :
  all_single_primary db ->
  (forall files captions,
      all_single_primary
        (post_property_images now db token propertyId files captions).2)
  /\ (forall caption isPrimary,
         all_single_primary
           (put_property_image now db token propertyId imageId caption isPrimary).2)
  /\ (forall destroyed,
         all_single_primary
           (delete_property_image now db token propertyId imageId destroyed).1.2)
  /\ (forall destroyed property i img n db' events,
         properties db !! propertyId = Some property ->
         list_find (fun x => Property.image_id x = imageId) (Property.images property)
         = Some (i, img) ->
         Property.isPrimary img = true ->
         delete_property_image now db token propertyId imageId destroyed
         = (Json 200 n, db', events) ->
         0 < n ->
         exists property' first,
           properties db' !! propertyId = Some property'
           /\ n = Z.of_nat (length (Property.images property'))
           /\ primaries (Property.images property') = 1%nat
           /\ Property.images property' !! 0%nat = Some first
           /\ Property.isPrimary first = true).
Proof.
  intros Hdb. split; [|split; [|split]].
  - intros. apply post_property_images_single_primary, Hdb.
  - intros. apply put_property_image_single_primary, Hdb.
  - intros. apply delete_property_image_single_primary, Hdb.
  - intros. eapply delete_property_image_promotes; eauto.
Qed.

Lemma sample_single_primary : all_single_primary Sample.db.
Proof.
  intros id p. unfold Sample.db. simpl.
  destruct (decide ("p1" = id)) as [<-|H1].
  - rewrite lookup_insert_eq. intros [= <-]. vm_compute. lia.
  - rewrite lookup_insert_ne by exact H1.
    destruct (decide ("p2" = id)) as [<-|H2].
    + rewrite lookup_singleton_eq. intros [= <-]. vm_compute. lia.
    + rewrite lookup_singleton_ne by exact H2. discriminate.
Qed.

Lemma image_operations_single_primary_witness :
  exists property' first,
    properties (delete_property_image 9 Sample.db (Auth.Verified "a1") "p1" "i1" true).1.2
      !! "p1" = Some property'
    /\ Z.of_nat (length (Property.images Sample.flat)) = 3
    /\ 2 = Z.of_nat (length (Property.images property'))
    /\ primaries (Property.images property') = 1%nat
    /\ Property.images property' !! 0%nat = Some first
    /\ Property.isPrimary first = true.
Proof.
  destruct (image_operations_single_primary 9 Sample.db (Auth.Verified "a1") "p1" "i1"
              sample_single_primary) as (_ & _ & _ & H).
  destruct (H true Sample.flat 0%nat (Sample.image "i1" true) 2
              (delete_property_image 9 Sample.db (Auth.Verified "a1") "p1" "i1" true).1.2
              [Destroy "properties/i1"])
    as (property' & first & Hp & Hrest);
    [vm_compute; reflexivity .. | lia |].
  exists property', first. split; [exact Hp|]. split; [reflexivity | exact Hrest].
Defined.

End Images.

(** ** Deleting an image when the media host fails *)

Section MediaHost.

Import Http Mongo Upload.




End MediaHost.

(** ** Counting views *)

Section Views.

Import Http Mongo.




(** When the collection has no document for the property's agent, the
    fetch of an authenticated requester ends in [next(error)] and counts
    nothing. *)
Lemma get_property_without_agent (now : Date) (db : Db) (token : Auth.Token)
    (id : string) (property : Property.t) (requester : User.t) :
  properties db !! id = Some property ->
  users db !! Property.agent property = None ->
  Auth.optionalAuth (users db) token = Some requester ->
  Properties.get_property now db token id = (Refuse 500 "Something went wrong!", db).
Proof.
  intros Hp Ha Hu. unfold Properties.get_property. rewrite Hp, Ha, Hu. reflexivity.
Qed.



End Views.

(** ** Who a request is *)

Section WhoIsAsking.

Import Http Mongo.

(** X1. [optionalAuth] sets [req.user] for exactly the requests that
    [protect] lets through, and to the same user: the stored, active user
    whose id a verified token carries. *)
Theorem optionalAuth_protect (users : gmap string User.t) (token : Auth.Token)
    (user : User.t) :
  (Auth.optionalAuth users token = Some user
   <-> Auth.protect (A := unit) users token = inl user)
  /\ (Auth.optionalAuth users token = Some user
      <-> exists uid, token = Auth.Verified uid /\ users !! uid = Some user
                      /\ User.isActive user = true).
Proof.
  unfold Auth.optionalAuth, Auth.protect. destruct token as [| |uid].
  - split; split; try discriminate. intros (? & [=] & _).
  - split; split; try discriminate. intros (? & [=] & _).
  - destruct (users !! uid) as [u|] eqn:Eu.
    + destruct (User.isActive u) eqn:Ea; simpl.
      * split; split.
        -- intros [= <-]. reflexivity.
        -- intros [= <-]. reflexivity.
        -- intros [= <-]. exists uid. auto.
        -- intros (uid' & [= <-] & Hu & _). congruence.
      * split; split; try discriminate.
        intros (uid' & [= <-] & Hu & Ha). congruence.
    + split; split; try discriminate.
      intros (uid' & [= <-] & Hu & _). congruence.
Qed.

(** X2. The head of the admin routes lets a request through exactly when
    [protect] does and the user's role is 'admin'; what [protect] refuses
    is answered 401 with its message, and an admitted user of another role
    403. *)
Theorem admin_only_gate (users : gmap string User.t) (token : Auth.Token) :
  match Credentials.admin_only (A := unit) users token with
  | inl user =>
      Auth.protect (A := unit) users token = inl user /\ User.role user = "admin"
  | inr refusal =>
      (Auth.protect users token = inr refusal /\ code refusal = 401)
      \/ (exists user, Auth.protect (A := unit) users token = inl user
                       /\ User.role user <> "admin" /\ code refusal = 403)
  end.
Proof.
  unfold Credentials.admin_only.
  destruct (Auth.protect users token) as [user|refusal] eqn:Ep.
  - unfold Credentials.authorize. simpl. rewrite orb_false_r.
    destruct (String.eqb (User.role user) "admin") eqn:Er; simpl.
    + apply String.eqb_eq in Er. auto.
    + apply String.eqb_neq in Er. right. exists user. auto.
  - left. split; [reflexivity | eapply protect_refusal, Ep].
Qed.

Lemma split_no_space (s : string) :
  Text.has_space s = false -> Text.split " " s = [s].
Proof.
  induction s as [|c r IH]; [reflexivity|]. simpl.
  intros [Hc Hr]%orb_false_iff. rewrite Hc, (IH Hr). reflexivity.
Qed.

Lemma split_bearer (t : string) :
  Text.split " " ("Bearer " ++ t) = "Bearer" :: Text.split " " t.
Proof. reflexivity. Qed.

(** X3. The header the client builds from its stored token is read back
    by the middleware as that token: for a non-empty token without a
    space, whatever the cookie holds, the middleware settles on the stored
    token, and when [jwt.verify] accepts it for a stored, active user,
    [protect] lets that user through. *)
Theorem bearer_round_trip (verify : string -> option string)
    (users : gmap string User.t) (stored uid : string) (cookie : option string)
    (user : User.t) :
  stored <> "" -> Text.has_space stored = false ->
  verify stored = Some uid -> users !! uid = Some user -> User.isActive user = true ->
  let request :=
    {| Credentials.authorization := Client.authorization (Some stored);
       Credentials.cookie_token := cookie |} in
  Credentials.token_of request = Some stored
  /\ Auth.protect (A := unit) users (Credentials.resolve verify request) = inl user.
Proof.
  intros Hne Hsp Hv Hu Ha. cbv zeta.
  assert (E : Credentials.token_of
                {| Credentials.authorization := Client.authorization (Some stored);
                   Credentials.cookie_token := cookie |} = Some stored).
  { unfold Credentials.token_of, Client.authorization. simpl.
    destruct stored as [|c r]; [congruence|]. simpl JS.truthy.
    cbn [fmap option_fmap option_map JS.truthy].
    change (Text.startsWith "Bearer" ("Bearer " ++ String c r)) with true.
    cbv iota. rewrite split_bearer, (split_no_space _ Hsp). reflexivity. }
  split; [exact E|].
  unfold Credentials.resolve. rewrite E, Hv. apply protect_verified; assumption.
Qed.

Lemma bearer_round_trip_witness :
  Credentials.token_of
    {| Credentials.authorization := Client.authorization (Some "abc.def.ghi");
       Credentials.cookie_token := Some "other" |} = Some "abc.def.ghi"
  /\ Auth.protect (A := unit) (users Sample.db)
       (Credentials.resolve (fun _ => Some "a1")
          {| Credentials.authorization := Client.authorization (Some "abc.def.ghi");
             Credentials.cookie_token := Some "other" |}) = inl Sample.asha.
Proof.
  apply (bearer_round_trip (fun _ => Some "a1") (users Sample.db) "abc.def.ghi" "a1"
           (Some "other") Sample.asha);
    [discriminate | reflexivity | reflexivity | vm_compute; reflexivity | reflexivity].
Defined.

(** X4. An Authorization header that starts with 'Bearer' and has no space
    hides the cookie: the middleware settles on no token, and [protect]
    answers 401 'No token provided' even when the cookie holds a token
    that [jwt.verify] would accept. *)
Theorem bearer_without_token_hides_cookie (verify : string -> option string)
    (users : gmap string User.t) (header : string) (cookie : option string) :
  Text.startsWith "Bearer" header = true -> Text.has_space header = false ->
  let request :=
    {| Credentials.authorization := Some header;
       Credentials.cookie_token := cookie |} in
  Credentials.token_of request = None
  /\ Auth.protect (A := unit) users (Credentials.resolve verify request)
     = inr (Refuse 401 "Access denied. No token provided.").
Proof.
  intros Hb Hsp. cbv zeta.
  assert (E : Credentials.token_of
                {| Credentials.authorization := Some header;
                   Credentials.cookie_token := cookie |} = None).
  { unfold Credentials.token_of.
    cbn [Credentials.authorization Credentials.cookie_token].
    assert (JS.truthy (Some header) = Some header) as ->
      by (destruct header; [discriminate | reflexivity]).
    rewrite Hb, (split_no_space _ Hsp). reflexivity. }
  split; [exact E|]. unfold Credentials.resolve. rewrite E. reflexivity.
Qed.

Lemma bearer_without_token_hides_cookie_witness :
  Credentials.token_of
    {| Credentials.authorization := Some "Bearer";
       Credentials.cookie_token := Some "abc.def.ghi" |} = None
  /\ Credentials.token_of
       {| Credentials.authorization := None;
          Credentials.cookie_token := Some "abc.def.ghi" |} = Some "abc.def.ghi".
Proof.
  split; [|reflexivity].
  apply (bearer_without_token_hides_cookie (fun _ => Some "a1") (users Sample.db)
           "Bearer" (Some "abc.def.ghi")); reflexivity.
Defined.

(** X5. Every refusal of [protect] carries one of four messages, and the
    client drops its stored token after exactly one of them, 'Invalid
    token', which is what a token that [jwt.verify] rejected is answered
    with; after 'No token provided', 'user not found' and 'account is
    deactivated' the stored token stays. *)
Theorem client_drops_rejected_token (users : gmap string User.t) (token : Auth.Token)
    (refusal : Response unit) (stored : option string) :
  Auth.protect users token = inr refusal ->
  exists message,
    Client.message_of refusal = Some message
    /\ ((message = "Invalid token"
         /\ Client.handleAPIError (Client.error_message (Some message)) stored = None)
        \/ (In message [ "Access denied. No token provided.";
                         "Token is valid but user not found";
                         "User account is deactivated" ]
            /\ Client.handleAPIError (Client.error_message (Some message)) stored
               = stored))
    /\ (token = Auth.BadToken -> message = "Invalid token")
    /\ (token = Auth.NoToken -> message = "Access denied. No token provided.").
Proof.
  unfold Auth.protect. destruct token as [| |uid].
  - intros [= <-]. eexists. split; [reflexivity|]. split; [|split; [discriminate|auto]].
    right. split; [simpl; auto | reflexivity].
  - intros [= <-]. eexists. split; [reflexivity|]. split; [|split; [auto|discriminate]].
    left. split; reflexivity.
  - destruct (users !! uid) as [u|].
    + destruct (User.isActive u); [discriminate|]. intros [= <-].
      eexists. split; [reflexivity|]. split; [|split; discriminate].
      right. split; [simpl; auto | reflexivity].
    + intros [= <-]. eexists. split; [reflexivity|]. split; [|split; discriminate].
      right. split; [simpl; auto | reflexivity].
Qed.

Lemma client_drops_rejected_token_witness :
  exists refusal,
    Auth.protect (A := unit) (users Sample.registry) Auth.BadToken = inr refusal
    /\ Client.message_of refusal = Some "Invalid token"
    /\ Client.handleAPIError (Client.error_message (Client.message_of refusal))
         (Some "abc.def.ghi") = None.
Proof.
  destruct (client_drops_rejected_token (users Sample.registry) Auth.BadToken
              (Refuse 401 "Invalid token") (Some "abc.def.ghi") eq_refl)
    as (m & Em & _ & Hbad & _).
  exists (Refuse 401 "Invalid token"). split; [reflexivity|].
  rewrite Em, (Hbad eq_refl). split; reflexivity.
Defined.

End WhoIsAsking.

(** ** Deleting a property *)

Section Deleting.

Import Http Mongo PropertyWrites.


Lemma delete_property_gone (db : Db) (token : Auth.Token) (id : string) :
  code (delete_property db token id).1 = 200 ->
  properties (delete_property db token id).2 !! id = None.
Proof.
  unfold delete_property.
  destruct (Auth.protect (users db) token) as [user|refusal] eqn:Ep.
  - destruct (properties db !! id) as [property|]; [|discriminate].
    destruct (Auth.not_owner_nor_admin property user); [discriminate|].
    intros _. apply lookup_delete_eq.
  - simpl. rewrite (protect_refusal _ _ _ Ep). discriminate.
Qed.

(** X7. Once a property has been deleted, fetching it is answered 404
    without a write, whoever asks, and so is a status update by a
    requester that [protect] admits. *)
Theorem deleted_property_not_found (db : Db) (token : Auth.Token) (id : string) :
  code (delete_property db token id).1 = 200 ->
  let db' := (delete_property db token id).2 in
  (forall now token',
      Properties.get_property now db' token' id
      = (Refuse 404 "Property not found", db'))
  /\ (forall now token' user body,
         Auth.protect (A := Property.t) (users db') token' = inl user ->
         Validator.isEmpty
           [Validator.Chain "status" false (Validator.isIn Property.status_enum)] body
         = true ->
         Properties.put_status now db' token' id body
         = (Refuse 404 "Property not found", db')).
Proof.
  intros H. cbv zeta.
  pose proof (delete_property_gone db token id H) as Hgone. split.
  - intros now token'. unfold Properties.get_property. rewrite Hgone. reflexivity.
  - intros now token' user body Hp Hv. unfold Properties.put_status.
    rewrite Hp, Hv, Hgone. reflexivity.
Qed.

Lemma deleted_property_not_found_witness :
  code (delete_property Sample.db (Auth.Verified "a1") "p2").1 = 200
  /\ Properties.get_property 9 (delete_property Sample.db (Auth.Verified "a1") "p2").2
       Auth.NoToken "p2"
     = (Refuse 404 "Property not found",
        (delete_property Sample.db (Auth.Verified "a1") "p2").2).
Proof.
  split; [vm_compute; reflexivity|].
  apply (deleted_property_not_found Sample.db (Auth.Verified "a1") "p2").
  vm_compute. reflexivity.
Defined.

End Deleting.

(** ** Submitting an inquiry *)

Section Inquiries.

Import Http Mongo Validator PropertyWrites.



(** Without variation selectors, the characters of a string are its code
    points. *)
Lemma characters_code_points (s : string) :
  Text.selectors s = 0%nat -> Text.characters s = JS.code_points s.
Proof. unfold Text.characters. intros ->. apply Nat.sub_0_r. Qed.




(** X9. The body is checked before the property is looked up: a message
    that is missing, or that has no variation selector and fewer than 10
    or more than 500 characters, or a phone that is sent and does not
    match the phone pattern, is answered 400 without a write, for an
    unknown property id too. *)
Theorem post_inquiry_rejects (isEmail : string -> bool) (now : Date) (db : Db)
    (token : Auth.Token) (id : string) (body : gmap string string) :
  (match body !! "message" with
   | Some m =>
       Text.selectors m = 0%nat
       /\ (JS.code_points m < 10 \/ 500 < JS.code_points m)%nat
   | None => True
   end
   \/ exists p, body !! "phone" = Some p /\ Text.phone p = false) ->
  post_inquiry isEmail now db token id body = (Refuse 400 "Validation errors", db).
Proof.
  intros H. unfold post_inquiry.
  assert (isEmpty (inquiry_chains isEmail) body = false) as ->; [|reflexivity].
  destruct H as [H | (p & Hp & Hbad)].
  - apply (failing_chain _ _ (Chain "message" false (Text.isLength 10 500)));
      [simpl; auto|].
    unfold passes. simpl. destruct (body !! "message") as [m|]; [|reflexivity].
    destruct H as [Hs H]. unfold Text.isLength.
    rewrite (characters_code_points m Hs). apply andb_false_iff.
    destruct H as [H | H]; [left | right]; apply Nat.leb_gt; exact H.
  - apply (failing_chain _ _ (Chain "phone" true Text.phone)); [simpl; auto|].
    unfold passes. simpl. rewrite Hp. exact Hbad.
Qed.

Lemma post_inquiry_rejects_witness :
  post_inquiry (fun _ => true) 9 Sample.registry Auth.NoToken "nowhere"
    {[ "message" := "Is this flat still available?"; "phone" := "0123" ]}
  = (Refuse 400 "Validation errors", Sample.registry)
  /\ post_inquiry (fun _ => true) 9 Sample.registry Auth.NoToken
       "64b7f3a2c9e1d40012ab3501" {[ "message" := "Too short" ]}
     = (Refuse 400 "Validation errors", Sample.registry).
Proof.
  split.
  - apply post_inquiry_rejects. right. exists "0123". split; vm_compute; reflexivity.
  - apply post_inquiry_rejects. left. vm_compute. split; [reflexivity | left; lia].
Defined.

End Inquiries.

(** ** What others see of an agent *)

Section AgentListings.

Import Http Mongo AgentRoutes.

(** X10. On [GET /api/agents/:id/properties] the filter always selects
    the agent's properties, and for every requester but the agent itself
    it is exactly [{agent: id, status: 'active'}], whatever status the
    request asks for; the agent itself gets a [status] entry only for a
    status it sends. *)
Theorem agent_properties_visibility (user : option User.t) (id : string)
    (query : gmap string string) :
  properties_filter user id query !! "agent" = Some (Is id)
  /\ (is_Some user -> (User.id <$> user) = Some id ->
      (query !! "status" = None ->
       properties_filter user id query = {[ "agent" := Is id ]})
      /\ (forall s, query !! "status" = Some s -> s <> "" ->
                    properties_filter user id query
                    = <["status" := Is s]> {[ "agent" := Is id ]}))
  /\ ((User.id <$> user) <> Some id ->
      properties_filter user id query
      = <["status" := Is "active"]> {[ "agent" := Is id ]}).
Proof.
  unfold properties_filter. destruct user as [u|]; simpl.
  - destruct (String.eqb (User.id u) id) eqn:E; simpl.
    + apply String.eqb_eq in E. split; [|split].
      * rewrite assign_if_other by discriminate. apply lookup_singleton_eq.
      * intros _ _. split.
        -- intros ->. reflexivity.
        -- intros s -> Hs. destruct s; [congruence | reflexivity].
      * intros H. congruence.
    + apply String.eqb_neq in E. split; [|split].
      * rewrite lookup_insert_ne by discriminate. apply lookup_singleton_eq.
      * intros _ [= H]. contradiction.
      * reflexivity.
  - split; [|split].
    + rewrite lookup_insert_ne by discriminate. apply lookup_singleton_eq.
    + intros [? [=]].
    + reflexivity.
Qed.

(** X11. Whatever the request carries, the filter of [GET /api/agents]
    selects only agents that are active and verified; its other keys come
    from parameters the request carries. *)
Theorem agent_listing_filter (env : Env) (query : gmap string string) :
  Agents.list_filter env query !! "isAgent" = Some (IsBool true)
  /\ Agents.list_filter env query !! "isActive" = Some (IsBool true)
  /\ Agents.list_filter env query !! "agentProfile.isVerified" = Some (IsBool true)
  /\ (forall key,
         is_Some (Agents.list_filter env query !! key) ->
         In key agent_filter_fixed
         \/ exists param, In (param, key) agent_filter_keys /\ is_Some (query !! param)).
Proof.
  unfold Agents.list_filter. split; [|split; [|split]].
  - rewrite !assign_if_other by discriminate.
    rewrite !lookup_insert_ne by discriminate. apply lookup_singleton_eq.
  - rewrite !assign_if_other by discriminate.
    rewrite lookup_insert_ne by discriminate. apply lookup_insert_eq.
  - rewrite !assign_if_other by discriminate. apply lookup_insert_eq.
  - intros key H.
    apply assign_if_lookup in H as [[-> H] | H];
      [right; exists "search"; split; [simpl; auto 10 | exact H] |].
    apply assign_if_lookup in H as [[-> H] | H];
      [right; exists "minRating"; split; [simpl; auto 10 | exact H] |].
    apply assign_if_lookup in H as [[-> H] | H];
      [right; exists "city"; split; [simpl; auto 10 | exact H] |].
    apply assign_if_lookup in H as [[-> H] | H];
      [right; exists "specialization"; split; [simpl; auto 10 | exact H] |].
    left. destruct (decide ("agentProfile.isVerified" = key)) as [<-|H1];
      [simpl; auto|].
    rewrite lookup_insert_ne in H by exact H1.
    destruct (decide ("isActive" = key)) as [<-|H2]; [simpl; auto|].
    rewrite lookup_insert_ne in H by exact H2.
    destruct (decide ("isAgent" = key)) as [<-|H3]; [simpl; auto|].
    rewrite lookup_singleton_ne in H by exact H3. destruct H as [? [=]].
Qed.

Lemma allowed_In (key : string) :
  existsb (String.eqb key) allowedFields = true <-> In key allowedFields.
Proof.
  rewrite existsb_exists. split.
  - intros (k & Hin & E). apply String.eqb_eq in E. subst. exact Hin.
  - intros Hin. exists key. split; [exact Hin | apply String.eqb_refl].
Qed.

(** The update document holds exactly the allowed entries of the body,
    each under its [agentProfile.] path. *)
Lemma updateFields_lookup {V} (body : gmap string V) (path : string) (v : V) :
  updateFields body !! path = Some v
  <-> exists key, path = "agentProfile." ++ key /\ In key allowedFields
                  /\ body !! key = Some v.
Proof.
  unfold updateFields. revert path v.
  apply (map_fold_weak_ind
           (fun (r m : gmap string V) =>
              forall path v,
                r !! path = Some v
                <-> exists key, path = "agentProfile." ++ key /\ In key allowedFields
                                /\ m !! key = Some v)).
  - intros path v. rewrite lookup_empty. split; [discriminate|].
    intros (key & _ & _ & H). rewrite lookup_empty in H. discriminate.
  - intros i x m r Hi IH path v.
    destruct (existsb (String.eqb i) allowedFields) eqn:Ei.
    + apply allowed_In in Ei.
      destruct (decide ("agentProfile." ++ i = path)) as [<-|Hne].
      * rewrite lookup_insert_eq. split.
        -- intros [= <-]. exists i. rewrite lookup_insert_eq. auto.
        -- intros (key & Hk & _ & Hv).
           apply (inj (String.app "agentProfile.")) in Hk. subst key.
           rewrite lookup_insert_eq in Hv. exact Hv.
      * rewrite lookup_insert_ne by exact Hne. rewrite IH. split.
        -- intros (key & -> & Hin & Hv). exists key.
           rewrite lookup_insert_ne by congruence. auto.
        -- intros (key & -> & Hin & Hv). exists key.
           rewrite lookup_insert_ne in Hv by congruence. auto.
    + rewrite IH. split.
      * intros (key & -> & Hin & Hv). exists key.
        rewrite lookup_insert_ne; [auto|]. intros ->. congruence.
      * intros (key & -> & Hin & Hv). exists key.
        rewrite lookup_insert_ne in Hv; [auto|].
        intros ->. apply allowed_In in Hin. congruence.
Qed.

(** X12. The update document of [PUT /api/agents/profile] holds exactly
    the body's entries for experience, specialization, bio, phone and
    address, each moved under [agentProfile.]; whatever else the body
    carries, it never writes the rating, the verification flag, the
    transaction count, the licence number, the role or the account
    flags. *)
Theorem updateFields_allow_list {V} (body : gmap string V) :
  (forall path v,
      updateFields body !! path = Some v
      <-> exists key, path = "agentProfile." ++ key /\ In key allowedFields
                      /\ body !! key = Some v)
  /\ (forall path, In path protected_paths -> updateFields body !! path = None).
Proof.
  split; [apply updateFields_lookup|].
  intros path Hin. destruct (updateFields body !! path) as [v|] eqn:E; [|reflexivity].
  exfalso. apply updateFields_lookup in E as (key & -> & Hk & _).
  simpl in Hk, Hin.
  repeat (destruct Hk as [<- | Hk];
          [repeat (destruct Hin as [Hin | Hin]; [discriminate Hin|]);
           exact Hin|]).
  exact Hk.
Qed.

End AgentListings.

(** ** The dashboard's recent inquiries *)

Section RecentInquiries.

Import AgentRoutes.

Lemma insert_recent_perm (x : FlatInquiry) (l : list FlatInquiry) :
  insert_recent x l ≡ₚ x :: l.
Proof.
  induction l as [|y r IH]; [reflexivity|]. simpl.
  destruct (createdAt x <=? createdAt y); [|reflexivity].
  rewrite IH. apply Permutation_swap.
Qed.

Lemma insert_recent_sorted (x : FlatInquiry) (l : list FlatInquiry) :
  StronglySorted newer_first l -> StronglySorted newer_first (insert_recent x l).
Proof.
  induction l as [|y r IH]; intros Hs; simpl.
  - repeat constructor.
  - apply StronglySorted_inv in Hs as [Hr Hy].
    destruct (createdAt x <=? createdAt y) eqn:E.
    + apply Z.leb_le in E. apply SSorted_cons; [apply IH, Hr|].
      rewrite (insert_recent_perm x r). constructor; [exact E | exact Hy].
    + apply Z.leb_gt in E. apply SSorted_cons.
      * apply SSorted_cons; assumption.
      * constructor; [unfold newer_first; lia|].
        eapply Forall_impl; [exact Hy|]. unfold newer_first. intros z Hz. lia.
Qed.

Lemma fold_insert_recent (l acc : list FlatInquiry) :
  StronglySorted newer_first acc ->
  StronglySorted newer_first (fold_left (fun s x => insert_recent x s) l acc)
  /\ fold_left (fun s x => insert_recent x s) l acc ≡ₚ acc ++ l.
Proof.
  revert acc. induction l as [|x l IH]; intros acc Hs; simpl.
  - rewrite app_nil_r. auto.
  - destruct (IH (insert_recent x acc) (insert_recent_sorted _ _ Hs)) as [H1 H2].
    split; [exact H1|]. rewrite H2, insert_recent_perm.
    rewrite (Permutation_middle acc l x). reflexivity.
Qed.

Lemma flatten_elem (found : list Property.t) (f : FlatInquiry) :
  f ∈ flatten found
  <-> exists property, property ∈ found
                       /\ inquiry f ∈ Property.inquiries property
                       /\ propertyTitle f = Property.title property
                       /\ propertyId f = Property.id property.
Proof.
  unfold flatten. rewrite list_elem_of_In, in_flat_map. split.
  - intros (p & Hp & Hf). apply list_elem_of_In in Hp, Hf.
    apply list_elem_of_fmap in Hf as (i & -> & Hi). exists p. auto.
  - intros (p & Hp & Hi & Ht & Hid). exists p.
    rewrite <- !list_elem_of_In. split; [exact Hp|].
    apply list_elem_of_fmap. exists (inquiry f). split; [|exact Hi].
    destruct f as [i t k]. simpl in *. subst. reflexivity.
Qed.

(** X13. The dashboard's recent inquiries are the five most recent
    inquiries of the properties found (all of them when there are fewer),
    most recent first: the list is in that order, has min(5, n) entries,
    each an inquiry of one of the properties with that property's title
    and id, and together with the entries left out it makes up all the
    inquiries found, none of those left out being more recent than one
    that is listed. *)
Theorem recent_inquiries_top_five (found : list Property.t) :
  let listed := recentInquiriesLimited found in
  StronglySorted newer_first listed
  /\ length listed = Nat.min 5 (length (flatten found))
  /\ (forall f, f ∈ listed ->
        exists property, property ∈ found
                         /\ inquiry f ∈ Property.inquiries property
                         /\ propertyTitle f = Property.title property
                         /\ propertyId f = Property.id property)
  /\ exists left_out,
       flatten found ≡ₚ listed ++ left_out
       /\ forall x y, x ∈ listed -> y ∈ left_out -> createdAt y <= createdAt x.
Proof.
  cbv zeta. unfold recentInquiriesLimited, sort_recent.
  destruct (fold_insert_recent (flatten found) [] (SSorted_nil _)) as [Hs Hp].
  simpl in Hp.
  set (sorted := fold_left (fun s x => insert_recent x s) (flatten found) []) in *.
  rewrite <- (take_drop 5 sorted) in Hs.
  split; [eapply StronglySorted_app_1_l, Hs|].
  split; [rewrite length_take, Hp; reflexivity|].
  split.
  - intros f Hf. apply flatten_elem. rewrite <- Hp, <- (take_drop 5 sorted).
    apply elem_of_app. left. exact Hf.
  - exists (drop 5 sorted). split; [rewrite take_drop; symmetry; exact Hp|].
    intros x y Hx Hy. apply (StronglySorted_app_1_elem_of _ _ _ x y Hs Hx Hy).
Qed.

End RecentInquiries.

(** ** Paging through all the matches *)

Section Paging.

Import Http Mongo.





End Paging.

(** ** What a rating changes *)

Section RatingWrites.

Import Http Mongo.

Lemma rating_updatedAt_only (now : Date) (r : User.Rating) (agent : User.t) :
  User.set_updatedAt (User.updatedAt agent)
    (User.set_rating (User.rating (User.agentProfile agent))
       (User.set_updatedAt now (User.set_rating r agent)))
  = agent.
Proof. destruct agent as [? ? ? ? ? profile ? ? ?]. destruct profile. reflexivity. Qed.

(** What a successful [updateRating] leaves: the rating the arithmetic
    gives, a document that passes validation, and nothing else changed
    but [updatedAt]. *)
Lemma updateRating_Some (now : Date) (x : Q) (agent agent' : User.t) :
  User.updateRating now x agent = Some agent' ->
  User.rating (User.agentProfile agent')
  = User.foldRating (User.rating (User.agentProfile agent)) x
  /\ User.set_updatedAt (User.updatedAt agent)
       (User.set_rating (User.rating (User.agentProfile agent)) agent')
     = agent
  /\ User.valid agent' = true.
Proof.
  unfold User.updateRating, User.save.
  destruct (User.count _ =? 0); [discriminate|].
  destruct (User.valid _) eqn:Hv; [|discriminate].
  case_decide as E; intros [= <-].
  - split; [reflexivity|]. split; [|exact Hv].
    rewrite <- (rating_updatedAt_only (User.updatedAt agent)
                  (User.rating (User.agentProfile agent)) agent) at 3.
    destruct agent as [? ? ? ? ? profile ? ? ?]. destruct profile. reflexivity.
  - split; [reflexivity|]. split; [apply rating_updatedAt_only | exact Hv].
Qed.

Lemma requireAgent_refusal {A} (user : User.t) (refusal : Response A) :
  Auth.requireAgent user = Some refusal -> code refusal = 403.
Proof.
  unfold Auth.requireAgent. destruct (User.isAgent user); [discriminate|].
  intros [= <-]. reflexivity.
Qed.

(** X15. [POST /api/agents/:id/rate] never touches a property, and writes
    nothing unless it answers 200.  When it answers 200, the text of the
    URL is not the requester's id, and exactly one user document is
    written: that of the id the URL's text is cast to, an active agent,
    which differs from before in its rating and in [updatedAt] only, and
    passes the schema's validators;
    for a stored average between 0 and 5, a stored count below 2^53 and a
    parsed rating between 1 and 5, the new rating is what the arithmetic
    of [updateRating] makes of them. *)
Theorem rate_agent_frame (env : Env) (now : Date) (db : Db) (token : Auth.Token)
    (id : string) (body : gmap string string) :
  let result := Agents.rate_agent env now db token id body in
  properties result.2 = properties db
  /\ (code result.1 <> 200 -> result.2 = db)
  /\ (code result.1 = 200 ->
      exists requester _id agent rating stored,
        Auth.protect (A := unit) (users db) token = inl requester
        /\ User.id requester <> id
        /\ ObjectId.cast id = Some _id
        /\ users db !! _id = Some agent
        /\ User.isAgent agent = true /\ User.isActive agent = true
        /\ parseFloat env (default "" (body !! "rating")) = Num rating
        /\ users result.2 !! _id = Some stored
        /\ (forall k, k <> _id -> users result.2 !! k = users db !! k)
        /\ User.set_updatedAt (User.updatedAt agent)
             (User.set_rating (User.rating (User.agentProfile agent)) stored)
           = agent
        /\ User.valid stored = true
        /\ (0 <= User.count (User.rating (User.agentProfile agent)) < 2 ^ 53 ->
            (0 <= User.average (User.rating (User.agentProfile agent)) <= 5)%Q ->
            (1 <= rating <= 5)%Q ->
            User.rating (User.agentProfile stored)
            = User.foldRating (User.rating (User.agentProfile agent)) rating)).
Proof.
  cbv zeta. unfold Agents.rate_agent.
  destruct (Auth.protect (users db) token) as [requester|refusal] eqn:Ep.
  2:{ pose proof (protect_refusal _ _ _ Ep) as Hc. simpl.
      repeat split; auto. rewrite Hc. discriminate. }
  destruct (Validator.isEmpty _ body); simpl;
    [|repeat split; auto; discriminate].
  destruct (ObjectId.cast id) as [_id|] eqn:Ec;
    [|simpl; repeat split; auto; discriminate].
  destruct (users db !! _id) as [agent|] eqn:Eu;
    [|simpl; repeat split; auto; discriminate].
  destruct (User.isAgent agent && User.isActive agent) eqn:Eg; simpl;
    [|repeat split; auto; discriminate].
  apply andb_true_iff in Eg as [Eg Ea].
  destruct (String.eqb (User.id requester) id) eqn:Eid;
    [simpl; repeat split; auto; discriminate|].
  apply String.eqb_neq in Eid.
  destruct (parseFloat env (default "" (body !! "rating"))) as [|rating] eqn:Er;
    [simpl; repeat split; auto; discriminate|].
  destruct (User.updateRating now rating agent) as [agent'|] eqn:Es;
    [|simpl; repeat split; auto; discriminate].
  apply updateRating_Some in Es as (Hr & Hf & Hv). simpl.
  split; [reflexivity|]. split; [intros H; contradiction|]. intros _.
  exists requester, _id, agent, rating, agent'. rewrite lookup_insert_eq.
  repeat split; auto. intros k Hk. apply lookup_insert_ne. congruence.
Qed.

End RatingWrites.

(** ** More on the image list *)

Section UploadFacts.

Import Http Mongo Upload.

Implicit Types (l : list Property.Image) (img : Property.Image).


Lemma mapM_imap_some (g : nat -> File -> option Property.Image) (files : list File) l :
  mapM id (imap g files) = Some l -> forall f, f ∈ files -> exists i, is_Some (g i f).
Proof.
  revert g l. induction files as [|f files IH]; intros g l H f' Hin.
  - inversion Hin.
  - rewrite imap_cons in H. apply mapM_Some in H.
    apply Forall2_cons_inv_l in H as (img & rest & E0 & Er & ->).
    apply mapM_Some in Er. apply elem_of_cons in Hin as [-> | Hin].
    + exists 0%nat. eauto.
    + destruct (IH _ _ Er f' Hin) as [i Hi]. exists (S i). exact Hi.
Qed.




(** X17. When the media host rejects one file of an upload, nothing is
    stored, whatever happened to the other files: the collection is as it
    was and the answer is not 200. *)
Theorem post_property_images_all_or_nothing (now : Date) (db : Db)
    (token : Auth.Token) (propertyId : string) (files : list File)
    (captions : option (list string)) (failed : File) :
  failed ∈ files -> stored failed = None ->
  (post_property_images now db token propertyId files captions).2 = db
  /\ code (post_property_images now db token propertyId files captions).1 <> 200.
Proof.
  intros Hin Hf. unfold post_property_images.
  destruct (Auth.protect (users db) token) as [user|refusal] eqn:Ep.
  2:{ simpl. rewrite (protect_refusal _ _ _ Ep). split; [reflexivity | discriminate]. }
  destruct (Auth.requireAgent user) as [refusal|] eqn:Ea.
  { simpl. rewrite (requireAgent_refusal _ _ Ea). split; [reflexivity | discriminate]. }
  destruct (properties db !! propertyId) as [property|];
    [|split; [reflexivity | discriminate]].
  destruct (Auth.not_owner_nor_admin property user);
    [split; [reflexivity | discriminate]|].
  destruct (length files =? 0)%nat; [split; [reflexivity | discriminate]|].
  destruct (mapM id _) as [uploaded|] eqn:Eup; [|split; [reflexivity | discriminate]].
  exfalso. destruct (mapM_imap_some _ _ _ Eup failed Hin) as [i [img Hi]].
  unfold uploaded_image in Hi. rewrite Hf in Hi. discriminate.
Qed.

Lemma post_property_images_all_or_nothing_witness :
  post_property_images 9 Sample.db (Auth.Verified "a1") "p2"
    [ {| stored := Some ("properties/n1", "https://img/n1"); oid := "n1" |};
      {| stored := None; oid := "n2" |} ] None
  = (Refuse 500 "Something went wrong!", Sample.db).
Proof.
  pose proof (post_property_images_all_or_nothing 9 Sample.db (Auth.Verified "a1") "p2"
                [ {| stored := Some ("properties/n1", "https://img/n1"); oid := "n1" |};
                  {| stored := None; oid := "n2" |} ] None
                {| stored := None; oid := "n2" |}) as [_ _];
    [right; left | reflexivity |].
  vm_compute. reflexivity.
Defined.




End UploadFacts.

(** ** The contact listing *)

Section Contacts.

Import Http Mongo.

(** X19. [GET /api/contact] lists contacts for admins only, and decides
    that before it looks at the query: a requester that [protect] refuses
    is answered 401 and one of another role 403, with a query that would
    fail validation too.  Its filter has no default restriction: it is
    empty for a request without parameters, and its keys come from
    parameters the request carries. *)
Theorem get_contacts_admin_only {D} (find : Filter -> list D)
    (sort : Sort -> list D -> list D) (users : gmap string User.t)
    (token : Auth.Token) (query : gmap string string) :
  match Contact.get_contacts find sort users token query with
  | Json _ _ =>
      exists user, Auth.protect (A := unit) users token = inl user
                   /\ User.role user = "admin"
  | Refuse c _ =>
      match Auth.protect (A := unit) users token with
      | inl user => if String.eqb (User.role user) "admin" then c = 400 \/ c = 500
                    else c = 403
      | inr _ => c = 401
      end
  end
  /\ Contact.list_filter ∅ = ∅
  /\ (forall key,
         is_Some (Contact.list_filter query !! key) ->
         exists param, In (param, key) contact_filter_keys /\ is_Some (query !! param)).
Proof.
  split; [|split; [reflexivity|]].
  - unfold Contact.get_contacts, Credentials.admin_only, Auth.protect.
    destruct token as [| |uid]; try reflexivity.
    destruct (users !! uid) as [u|]; [|reflexivity].
    destruct (User.isActive u); [|reflexivity].
    change (negb true) with false. cbv iota.
    unfold Credentials.authorize. cbn [existsb]. rewrite orb_false_r.
    destruct (String.eqb (User.role u) "admin") eqn:Er;
      cbn [negb]; cbv iota; [|reflexivity].
    destruct (Validator.isEmpty Contact.list_chains query);
      cbn [negb]; cbv iota; [|simpl; auto].
    unfold Properties.listing.
    destruct (Properties.pager query) as [[page limit] skip].
    destruct (run find sort _); simpl.
    + exists u. apply String.eqb_eq in Er. auto.
    + auto.
  - unfold Contact.list_filter. intros key H.
    apply assign_if_lookup in H as [[-> H] | H];
      [exists "search"; split; [simpl; auto 10 | exact H] |].
    apply assign_if_lookup in H as [[-> H] | H];
      [exists "priority"; split; [simpl; auto 10 | exact H] |].
    apply assign_if_lookup in H as [[-> H] | H];
      [exists "type"; split; [simpl; auto 10 | exact H] |].
    apply assign_if_lookup in H as [[-> H] | H];
      [exists "status"; split; [simpl; auto 10 | exact H] |].
    rewrite lookup_empty in H. destruct H as [? [=]].
Qed.

End Contacts.

(** ** Refused uploads *)

Section RefusedUploads.

Import Http.

(** X20. A file whose MIME type does not start with 'image/' is refused
    by the file filter with an error that the router's error middleware
    answers 400 'Only image files are allowed'; a file whose type does is
    accepted.  The middleware answers 400 for that error and for multer's
    size and count limits only; every other error goes on to the
    application's handler. *)
Theorem non_image_refused (mimetype : string) (error : Multer.Error) :
  match Multer.fileFilter mimetype with
  | Some refused =>
      Text.startsWith "image/" mimetype = false
      /\ Multer.error_middleware refused = Refuse 400 "Only image files are allowed"
  | None => Text.startsWith "image/" mimetype = true
  end
  /\ (code (Multer.error_middleware error) = 400
      <-> (Multer.isMulterError error = true
           /\ (Multer.code error = "LIMIT_FILE_SIZE"
               \/ Multer.code error = "LIMIT_FILE_COUNT"))
          \/ Multer.message error = "Not an image! Please upload only images.")
  /\ (code (Multer.error_middleware error) <> 400 ->
      Multer.error_middleware error = next_error).
Proof.
  split; [|split].
  - unfold Multer.fileFilter.
    destruct (Text.startsWith "image/" mimetype); [reflexivity|].
    split; reflexivity.
  - unfold Multer.error_middleware.
    destruct (Multer.isMulterError error); simpl.
    + destruct (String.eqb (Multer.code error) "LIMIT_FILE_SIZE") eqn:E1.
      { apply String.eqb_eq in E1. simpl. split; auto. }
      destruct (String.eqb (Multer.code error) "LIMIT_FILE_COUNT") eqn:E2.
      { apply String.eqb_eq in E2. simpl. split; auto. }
      apply String.eqb_neq in E1, E2.
      destruct (String.eqb (Multer.message error) _) eqn:E3; simpl.
      * apply String.eqb_eq in E3. split; auto.
      * apply String.eqb_neq in E3. split; [discriminate|].
        intros [[_ [H | H]] | H]; contradiction.
    + destruct (String.eqb (Multer.message error) _) eqn:E3; simpl.
      * apply String.eqb_eq in E3. split; auto.
      * apply String.eqb_neq in E3. split; [discriminate|].
        intros [[H _] | H]; [discriminate | contradiction].
  - unfold Multer.error_middleware.
    destruct (_ && String.eqb (Multer.code error) "LIMIT_FILE_SIZE");
      [simpl; congruence|].
    destruct (_ && String.eqb (Multer.code error) "LIMIT_FILE_COUNT");
      [simpl; congruence|].
    destruct (String.eqb (Multer.message error) _); [simpl; congruence|].
    reflexivity.
Qed.

End RefusedUploads.

(** ** Writes by someone else *)

Section Ownership.

Import Http Mongo.



End Ownership.
